(** * CastXML, [src/RunClang.cxx]: a shallow embedding and its properties

  The file follows the translation unit top-down:

  - [StdString]: the three [std::string] members the code calls
    ([find], [substr], [operator+]);
  - [Predefines]: [CastXMLPredefines<T>::UpdatePredefines] and
    [BeginSourceFileAction];
  - [ClangLib]: the interface of the Clang libraries the driver code
    calls, as a type class over an abstract world;
  - [Run]: [CreateFrontendAction], [runClangCI], [runClangImpl] and
    [runClang] in a state-and-log monad;
  - [Scripted], [NoDiagnostics]: small instances of [ClangLib] to run
    the model on;
  - [Observations]: what a log shows, and a job's result stated from the
    library's answers;
  - [StringFacts], [PredefinesFacts], [RunFacts], [MoreFacts]: the
    properties. *)

From Stdlib Require Import String Ascii List ZArith Lia Bool Arith.
From Stdlib Require Import DecimalString.
Import ListNotations.

Local Open Scope list_scope.
Local Open Scope string_scope.

(* ===================================================================== *)
(** ** [std::string] *)
(* ===================================================================== *)

Module StdString.

(** [std::out_of_range], the only exception the members below throw. *)
Inductive exn : Type := out_of_range.

(** A computation that returns or throws. *)
Inductive result (A : Type) : Type :=
| Ok (a : A)
| Throw (e : exn).
Arguments Ok {A} a.
Arguments Throw {A} e.

Definition bind {A B : Type} (r : result A) (k : A -> result B) : result B :=
  match r with
  | Ok a => k a
  | Throw e => Throw e
  end.

(** [s.find(pat)]: the lowest position at which [pat] occurs in [s];
    [None] stands for [std::string::npos]. *)
Fixpoint find (s pat : string) : option nat :=
  if prefix pat s then Some 0
  else match s with
       | EmptyString => None
       | String _ s' => option_map S (find s' pat)
       end.

(** [s.substr(pos, n)]: throws when [pos > s.size()], otherwise the
    characters [pos, pos + min(n, s.size() - pos))].  [n = None] is the
    default argument [npos]. *)
Definition substr (s : string) (pos : nat) (n : option nat) : result string :=
  if Nat.ltb (String.length s) pos then Throw out_of_range
  else
    let rlen := match n with
                | Some n => Nat.min n (String.length s - pos)
                | None => String.length s - pos
                end in
    Ok (substring pos rlen s).

(** [s.empty()] *)
Definition empty (s : string) : bool :=
  match s with
  | EmptyString => true
  | String _ _ => false
  end.

(** [s.c_str()] as a C string reads it: the characters before the first
  NUL.  A [const char*] is modelled by the text before its terminator. *)
Fixpoint c_str (s : string) : string :=
  match s with
  | EmptyString => EmptyString
  | String c s' =>
      if Ascii.eqb c Ascii.zero then EmptyString else String c (c_str s')
  end.

(** [s] holds a NUL character. *)
Fixpoint has_nul (s : string) : bool :=
  match s with
  | EmptyString => false
  | String c s' => Ascii.eqb c Ascii.zero || has_nul s'
  end.

(** [s] occurs in [t] as a contiguous block. *)
Definition occurs_in (s t : string) : Prop :=
  exists a b : string, t = a ++ s ++ b.

End StdString.

Import StdString.

Notation "x <-! c ; k" := (StdString.bind c (fun x => k))
(at level 61, c at next level, right associativity).

(* ===================================================================== *)
(** ** [Options] (declared in [Options.h]; the fields this file reads) *)
(* ===================================================================== *)

Record Options : Type := mkOptions {
PPOnly : bool;
GccXml : bool;
HaveCC : bool;
OutputFile : string;
Includes : list string;
Predefines : string;
Triple : string;
StartNames : list string
}.

(* ===================================================================== *)
(** ** [CastXMLPredefines<T>] *)
(* ===================================================================== *)

Module Predefines.

Definition dquote : ascii := ascii_of_nat 34.
Definition newline : ascii := ascii_of_nat 10.

(** [char const predef_start[] = "# 1 \"<built-in>\" 3\n"] *)
Definition predef_start : string :=
  "# 1 " ++ String dquote "<built-in>" ++ String dquote " 3"
         ++ String newline EmptyString.

(** [char const predef_end[] = "# 1 \"<command line>\" 1\n"] *)
Definition predef_end : string :=
  "# 1 " ++ String dquote "<command line>" ++ String dquote " 1"
         ++ String newline EmptyString.

(** [sizeof] of a character array counts the terminating NUL. *)
Definition sizeof (a : string) : nat := S (String.length a).

Definition UpdatePredefines (Opts : Options) (predefines : string)
  : result string :=
  let start := find predefines predef_start in
  let end_ := find predefines predef_end in
  match start, end_ with
  | Some start, Some end_ =>
      x <-! substr predefines 0 (Some (start + sizeof predef_start - 1));
      y <-! substr predefines end_ None;
      Ok (x ++ Predefines Opts ++ y)
  | _, _ => Ok (predefines ++ Predefines Opts)
  end.

(** [BeginSourceFileAction]: what it installs with [setPredefines] (the
    predefines are left as they are when [HaveCC] is off), and its return
    value, always [true]. *)
Definition BeginSourceFileAction (Opts : Options) (predefines : string)
  : result (string * bool) :=
  if HaveCC Opts then
    p <-! UpdatePredefines Opts predefines;
    Ok (p, true)
  else Ok (predefines, true).

End Predefines.

(* ===================================================================== *)
(** ** The Clang libraries, as far as this file calls them *)
(* ===================================================================== *)

(** [clang::frontend::ActionKind].  The two enumerators the code names, and
  every other enumerator with its integer value. *)
Inductive ActionKind : Type :=
| PrintPreprocessedInput
| ParseSyntaxOnly
| OtherAction (code : Z).

(** [clang::driver::Job]: a [Command] with the name of the tool that
  created it and its argument vector, or a nested [JobList]. *)
#[warnings="-register-all"] Inductive Job : Type :=
| Command (Creator : string) (Arguments : list string)
| JobList (Jobs : list Job).

(** [llvm::dyn_cast<clang::driver::Command>]: null for any other job. *)
Definition dyn_cast_Command (j : Job) : option (string * list string) :=
match j with
| Command creator arguments => Some (creator, arguments)
| JobList _ => None
end.

(** [clang::driver::Compilation], as read here: whether the parsed
  arguments have [OPT__HASH_HASH_HASH], and the job list. *)
Record Compilation : Type := mkCompilation {
hasArg_HASH_HASH_HASH : bool;
getJobs : list Job
}.

(** The handle of the diagnostics engine [runClangCreateDiagnostics]
  returns.  What is reported through it, by this file or by the library
  functions it is handed to, goes to the log of the run. *)
Inductive DiagnosticsEngine : Type := diagsEngine.

(** [clang::driver::Driver], the constructor's arguments and the public
  member [ResourceDir]. *)
Record Driver : Type := mkDriver {
  ClangExecutable : string;
  DefaultTargetTriple : string;
  DefaultImageName : string;
  Diags : DiagnosticsEngine;
  ResourceDir : string
}.

Definition set_ResourceDir (d : Driver) (dir : string) : Driver :=
  mkDriver (ClangExecutable d) (DefaultTargetTriple d) (DefaultImageName d)
           (Diags d) dir.

(** [clang::FrontendOptions], the three members read or written here. *)
Record FrontendOptions : Type := mkFrontendOptions {
ProgramAction : ActionKind;
SkipFunctionBodies : bool;
FrontendOutputFile : string
}.

(** [clang::CompilerInvocation]: its frontend options, and the rest of the
  parsed invocation, which this file never looks into. *)
Record CompilerInvocation (Rest : Type) : Type := mkCompilerInvocation {
FrontendOpts : FrontendOptions;
OtherOpts : Rest
}.
Arguments mkCompilerInvocation {Rest} _ _.
Arguments FrontendOpts {Rest} _.
Arguments OtherOpts {Rest} _.

(** [clang::CompilerInstance]. *)
Record CompilerInstance (Rest : Type) : Type := mkCompilerInstance {
getInvocation : CompilerInvocation Rest;
hasDiagnostics : bool
}.
Arguments mkCompilerInstance {Rest} _ _.
Arguments getInvocation {Rest} _.
Arguments hasDiagnostics {Rest} _.

(** The two actions of this file; each holds the options it was built
  with ([CastXMLPredefines::Opts]). *)
Inductive FrontendAction : Type :=
| CastXMLPrintPreprocessedAction (opts : Options)
| CastXMLSyntaxOnlyAction (opts : Options).

(** Diagnostic identifiers reported by this file. *)
Inductive DiagID : Type :=
| err_drv_output_argument_with_multiple_files
| err_fe_expected_clang_command
| err_fe_expected_compiler_job.

(** The library functions whose results depend on the machine and on the
  input files.  [World] is whatever they read and change. *)
Class ClangLib : Type := {
World : Type;
InvocationRest : Type;
(** a diagnostic of the library's own, as it reports it through an engine *)
Diagnostic : Type;
(** [llvm::sys::getDefaultTargetTriple()] *)
getDefaultTargetTriple : World -> string;
(** the [ResourceDir] the [Driver] constructor computes *)
computeResourceDir : string -> World -> string;
(** [cxsys::SystemTools::FileIsFullPath], [FileIsDirectory] *)
FileIsFullPath : string -> World -> bool;
FileIsDirectory : string -> World -> bool;
(** [getClangResourceDir()] of [Utils.h] *)
getClangResourceDir : World -> string;
(** [Driver::BuildCompilation]: the compilation, and what the driver
    reported through its engine [Diags] *)
BuildCompilation :
  Driver -> list string -> World -> (Compilation * list Diagnostic) * World;
(** [Job::Print(os, "\n", true)], the text written *)
Job_Print : Job -> string;
(** [CompilerInvocation::CreateFromArgs]: the success flag, the
    invocation filled in, and what was reported through the engine given *)
CreateFromArgs :
  list string -> DiagnosticsEngine -> World ->
  (bool * CompilerInvocation InvocationRest * list Diagnostic) * World;
(** [CompilerInstance::createDiagnostics], then [hasDiagnostics()] *)
createDiagnostics : CompilerInstance InvocationRest -> World -> bool * World;
(** [CompilerInstance::ExecuteAction] *)
ExecuteAction :
  CompilerInstance InvocationRest -> FrontendAction -> World -> bool * World
}.

(* ===================================================================== *)
(** ** The driver code *)
(* ===================================================================== *)

Module Run.
Section WithClang.

Context {clang : ClangLib}.

Local Abbreviation CI := (CompilerInstance InvocationRest).

(** What the run does to the outside, in program order: text on the
    error stream, diagnostics, and the calls into the frontend.
    [EvReport] is a [Report] call of this file on the driver's engine,
    [EvDiagnostic] a diagnostic the library reported through that engine
    inside the call logged before it.  What the frontend reports through
    an instance's own engine belongs to [EvExecuteAction]. *)
Inductive Event : Type :=
| EvParseDiagnosticArgs (args : list string)
| EvBuildCompilation (d : Driver) (cArgs : list string)
| EvDiagnostic (d : Diagnostic)
| EvPrintJobs (jobs : list Job)
| EvReport (id : DiagID) (fmt : list string)
| EvCerr (text : string)
| EvCreateFromArgs (cmdArgs : list string)
| EvCreateDiagnostics
| EvExecuteAction (ci : CI) (action : FrontendAction).

(** State over [World] with an event log. *)
Definition M (A : Type) : Type := World -> A * World * list Event.

Definition ret {A : Type} (a : A) : M A := fun w => (a, w, []).

Definition bind {A B : Type} (m : M A) (k : A -> M B) : M B :=
  fun w =>
    let '(a, w1, l1) := m w in
    let '(b, w2, l2) := k a w1 in
    (b, w2, (l1 ++ l2)%list).

Definition emit (e : Event) : M unit := fun w => (tt, w, [e]).

Definition read {A : Type} (f : World -> A) : M A := fun w => (f w, w, []).

Definition call {A : Type} (e : Event) (f : World -> A * World) : M A :=
  fun w => let '(a, w1) := f w in (a, w1, [e]).

(** A call of a library function that is handed the driver's engine. *)
Definition call_reporting {A : Type} (e : Event)
    (f : World -> (A * list Diagnostic) * World) : M A :=
  fun w => let '((a, ds), w1) := f w in (a, w1, e :: map EvDiagnostic ds).

Notation "x <- c ;; k" := (bind c (fun x => k))
  (at level 61, c at next level, right associativity).
Notation "c ;; k" := (bind c (fun _ => k))
  (at level 61, right associativity).

Definition value {A : Type} (r : A * World * list Event) : A := fst (fst r).
Definition world {A : Type} (r : A * World * list Event) : World := snd (fst r).
Definition log {A : Type} (r : A * World * list Event) : list Event := snd r.

(** [v.push_back(x)] and [v.insert(v.end(), first, last)] *)
Definition push_back {A : Type} (v : list A) (x : A) : list A := (v ++ [x])%list.
Definition insert_end {A : Type} (v : list A) (range : list A) : list A :=
  (v ++ range)%list.

(** [int(action)] *)
Definition int_of_action (code : Z) : string :=
  NilZero.string_of_int (Z.to_int code).

Definition newline_s : string := String Predefines.newline EmptyString.

(** [CreateFrontendAction]; [None] is the null pointer. *)
Definition CreateFrontendAction (ci : CI) (opts : Options)
  : M (option FrontendAction) :=
  let action := ProgramAction (FrontendOpts (getInvocation ci)) in
  match action with
  | PrintPreprocessedInput => ret (Some (CastXMLPrintPreprocessedAction opts))
  | ParseSyntaxOnly => ret (Some (CastXMLSyntaxOnlyAction opts))
  | OtherAction code =>
      emit (EvCerr ("error: unsupported action: " ++ int_of_action code
                      ++ newline_s)) ;;
      ret None
  end.

Definition set_SkipFunctionBodies (ci : CI) (b : bool) : CI :=
  let inv := getInvocation ci in
  let fo := FrontendOpts inv in
  mkCompilerInstance
    (mkCompilerInvocation
       (mkFrontendOptions (ProgramAction fo) b (FrontendOutputFile fo))
       (OtherOpts inv))
    (hasDiagnostics ci).

Definition set_OutputFile (ci : CI) (f : string) : CI :=
  let inv := getInvocation ci in
  let fo := FrontendOpts inv in
  mkCompilerInstance
    (mkCompilerInvocation
       (mkFrontendOptions (ProgramAction fo) (SkipFunctionBodies fo) f)
       (OtherOpts inv))
    (hasDiagnostics ci).

Definition set_hasDiagnostics (ci : CI) (b : bool) : CI :=
  mkCompilerInstance (getInvocation ci) b.

(** [runClangCI] *)
Definition runClangCI (ci : CI) (opts : Options) : M bool :=
  has <- call EvCreateDiagnostics (createDiagnostics ci) ;;
  let ci := set_hasDiagnostics ci has in
  if negb (hasDiagnostics ci) then ret false
  else
    let ci := set_SkipFunctionBodies ci true in
    let ci := set_OutputFile ci (OutputFile opts) in
    action <- CreateFrontendAction ci opts ;;
    match action with
    | Some a => call (EvExecuteAction ci a) (ExecuteAction ci a)
    | None => ret false
    end.

Definition runClangCreateDiagnostics (args : list string)
  : M DiagnosticsEngine :=
  emit (EvParseDiagnosticArgs args) ;;
  ret diagsEngine.

Definition Report (diags : DiagnosticsEngine) (id : DiagID)
                  (fmt : list string) : M unit :=
  emit (EvReport id fmt).

(** Lines 196-220 of [runClangImpl]: the diagnostics engine, the driver
    with its resource directory, the argument vector, the compilation. *)
Definition runClangImpl_driver (args : list string) (opts : Options)
  : M (DiagnosticsEngine * Compilation) :=
  diags <- runClangCreateDiagnostics args ;;
  triple <- read getDefaultTargetTriple ;;
  dir <- read (computeResourceDir "clang") ;;
  let d := mkDriver "clang" triple "dummy.out" diags dir in
  full <- read (FileIsFullPath (c_str (ResourceDir d))) ;;
  isdir <- read (FileIsDirectory (c_str (ResourceDir d))) ;;
  d <- (if negb full || negb isdir
        then dir <- read getClangResourceDir ;; ret (set_ResourceDir d dir)
        else ret d) ;;
  let cArgs := [] in
  let cArgs := push_back cArgs "<clang>" in
  let cArgs := insert_end cArgs args in
  let cArgs := if PPOnly opts then push_back cArgs "-E"
               else push_back cArgs "-fsyntax-only" in
  c <- call_reporting (EvBuildCompilation d cArgs)
                      (BuildCompilation d cArgs) ;;
  ret (diags, c).

(** The body of the [for] loop over the jobs: from the job [i] and the
    value of [result] before it, the value of [result] after it. *)
Definition loop_body (diags : DiagnosticsEngine) (opts : Options)
                     (i : Job) (result : bool) : M bool :=
  let unexpected : M bool :=
    let msg := Job_Print i in
    Report diags err_fe_expected_clang_command [] ;;
    Report diags err_fe_expected_compiler_job [msg] ;;
    ret false in
  match dyn_cast_Command i with
  | Some (creator, arguments) =>
      if (creator =? "clang")%string then
        r <- call_reporting (EvCreateFromArgs arguments)
                            (CreateFromArgs arguments diags) ;;
        let '(ok, inv) := r in
        let ci := mkCompilerInstance inv false in
        if ok then
          b <- runClangCI ci opts ;;
          ret (b && result)
        else ret false
      else unexpected
  | None => unexpected
  end.

Fixpoint for_jobs (diags : DiagnosticsEngine) (opts : Options)
                  (jobs : list Job) (result : bool) : M bool :=
  match jobs with
  | [] => ret result
  | i :: rest =>
      result <- loop_body diags opts i result ;;
      for_jobs diags opts rest result
  end.

(** Lines 222-263 of [runClangImpl]: what is done with the compilation. *)
Definition runClangImpl_jobs (diags : DiagnosticsEngine) (c : Compilation)
                             (opts : Options) : M Z :=
  if hasArg_HASH_HASH_HASH c then
    emit (EvPrintJobs (getJobs c)) ;;
    ret 0%Z
  else if negb (empty (OutputFile opts))
          && Nat.ltb 1 (List.length (getJobs c)) then
    Report diags err_drv_output_argument_with_multiple_files [] ;;
    ret 1%Z
  else
    result <- for_jobs diags opts (getJobs c) true ;;
    ret (if result then 0%Z else 1%Z).

Definition runClangImpl (args : list string) (opts : Options) : M Z :=
  dc <- runClangImpl_driver args opts ;;
  let '(diags, c) := dc in
  runClangImpl_jobs diags c opts.

(** The local vector [args] of [runClang] when it is handed to
    [runClangImpl]. *)
Definition runClang_args (args0 : list string) (opts : Options)
  : list string :=
  let args := args0 in
  if HaveCC opts then
    let args := if negb (empty (Triple opts))
                then push_back (push_back args "-target")
                               (c_str (Triple opts))
                else args in
    let args := push_back args "-nostdinc" in
    let args := fold_left
                  (fun args i =>
                     push_back (push_back args "-isystem") (c_str i))
                  (Includes opts) args in
    let args := push_back args "-undef" in
    args
  else args.

Definition runClang (args0 : list string) (opts : Options) : M Z :=
  runClangImpl (runClang_args args0 opts) opts.

(** *** Notions the statements below are written with *)

(** The test of the loop's [if]: a [Command] whose creator is named
    [clang]. *)
Definition is_clang_command (i : Job) : bool :=
  match dyn_cast_Command i with
  | Some (creator, _) => (creator =? "clang")%string
  | None => false
  end.

(** The test of line 229. *)
Definition output_conflict (c : Compilation) (opts : Options) : bool :=
  negb (empty (OutputFile opts)) && Nat.ltb 1 (List.length (getJobs c)).

(** A driver-level check failed: the run is not a dry run, and the
    output file is set for more than one job. *)
Definition driver_precondition_failed (c : Compilation) (opts : Options)
  : bool :=
  negb (hasArg_HASH_HASH_HASH c) && output_conflict c opts.

(** The jobs the loop is run on: none when the function returns before
    the loop. *)
Definition dispatched_jobs (c : Compilation) (opts : Options) : list Job :=
  if hasArg_HASH_HASH_HASH c then []
  else if output_conflict c opts then []
  else getJobs c.

(** One job's own outcome: the loop body run with [result = true]. *)
Definition job_run (diags : DiagnosticsEngine) (opts : Options) (i : Job)
  : M bool :=
  loop_body diags opts i true.

(** The boolean result of every job of the list, in list order, each
    job run in the world the job before it left. *)
Fixpoint job_results (diags : DiagnosticsEngine) (opts : Options)
                     (jobs : list Job) (w : World) : list bool :=
  match jobs with
  | [] => []
  | i :: rest =>
      let r := job_run diags opts i w in
      value r :: job_results diags opts rest (world r)
  end.

(** The events of every job of the list, in list order. *)
Fixpoint job_logs (diags : DiagnosticsEngine) (opts : Options)
                  (jobs : list Job) (w : World) : list (list Event) :=
  match jobs with
  | [] => []
  | i :: rest =>
      let r := job_run diags opts i w in
      log r :: job_logs diags opts rest (world r)
  end.

(** The world after the last job of the list. *)
Fixpoint jobs_world (diags : DiagnosticsEngine) (opts : Options)
                    (jobs : list Job) (w : World) : World :=
  match jobs with
  | [] => w
  | i :: rest =>
      jobs_world diags opts rest (world (job_run diags opts i w))
  end.

(** Events of a job being run by the frontend. *)
Definition is_dispatch_event (e : Event) : bool :=
  match e with
  | EvCreateFromArgs _ | EvCreateDiagnostics | EvExecuteAction _ _ => true
  | _ => false
  end.

Definition is_report (e : Event) : bool :=
  match e with
  | EvReport _ _ => true
  | _ => false
  end.

(** The message of [CreateFrontendAction]'s [default] case. *)
Definition unsupported_action_message (code : Z) : Event :=
  EvCerr ("error: unsupported action: " ++ int_of_action code ++ newline_s).

(** What follows the first text on [std::cerr] in a log. *)
Fixpoint events_after_cerr (l : list Event) : list Event :=
  match l with
  | [] => []
  | EvCerr _ :: rest => rest
  | _ :: rest => events_after_cerr rest
  end.

(** The run stopped at the unsupported action: nothing was dispatched
    after its message. *)
Definition aborted_on_unsupported_action (l : list Event) : bool :=
  negb (existsb is_dispatch_event (events_after_cerr l)).

(** The driver [runClangImpl] builds: the resource directory the
    constructor computed, or the fallback when that is not the full path
    of a directory. *)
Definition the_driver (w : World) : Driver :=
  let d := mkDriver "clang" (getDefaultTargetTriple w) "dummy.out"
                    diagsEngine (computeResourceDir "clang" w) in
  if negb (FileIsFullPath (c_str (ResourceDir d)) w)
     || negb (FileIsDirectory (c_str (ResourceDir d)) w)
  then set_ResourceDir d (getClangResourceDir w)
  else d.

(** The vector [cArgs] handed to [BuildCompilation]. *)
Definition driver_args (args : list string) (opts : Options) : list string :=
  ("<clang>" :: args ++ [if PPOnly opts then "-E" else "-fsyntax-only"])%list.

(** The compilation [c] of a run, and the world once it is built. *)
Definition compilation (args : list string) (opts : Options) (w : World)
  : Compilation :=
  snd (value (runClangImpl_driver args opts w)).

Definition world_built (args : list string) (opts : Options) (w : World)
  : World :=
  world (runClangImpl_driver args opts w).

(** The tokens [runClang] appends for an emulated compiler, each as the
    C string handed on. *)
Definition emulation_tokens (opts : Options) : list string :=
  ((if empty (Triple opts) then [] else ["-target"; c_str (Triple opts)])
     ++ ["-nostdinc"]
     ++ flat_map (fun dir => ["-isystem"; c_str dir]) (Includes opts)
     ++ ["-undef"])%list.

(** No string of the options that becomes a token holds a NUL. *)
Definition no_nul_options (opts : Options) : Prop :=
  has_nul (Triple opts) = false /\
  Forall (fun dir => has_nul dir = false) (Includes opts).

End WithClang.
End Run.

(* ===================================================================== *)
(** ** A scripted Clang, to run the model on concrete inputs *)
(* ===================================================================== *)

Module Scripted.

Definition has_flag (flag : string) (args : list string) : bool :=
  existsb (String.eqb flag) args.

(** The program action a [-cc1] line asks for; any line with neither
    [-E] nor [-fsyntax-only] gets an action this file does not handle. *)
Definition parse_action (args : list string) : ActionKind :=
  if has_flag "-E" args then PrintPreprocessedInput
  else if has_flag "-fsyntax-only" args then ParseSyntaxOnly
  else OtherAction 16.

Fixpoint print_job (j : Job) : string :=
  match j with
  | Command creator arguments => String.concat " " (creator :: arguments)
  | JobList jobs => String.concat ";" (map print_job jobs)
  end.

(** The driver answers with the compilation [c] whatever it is asked;
    the world is the list of results the coming [ExecuteAction] calls
    will have, and an invocation keeps its argument vector. *)
Definition clang (c : Compilation) : ClangLib := {|
  World := list bool;
  InvocationRest := list string;
  Diagnostic := string;
  getDefaultTargetTriple := fun _ => "x86_64-unknown-linux-gnu";
  computeResourceDir := fun _ _ => "/usr/lib/clang/3.4";
  FileIsFullPath := fun _ _ => true;
  FileIsDirectory := fun _ _ => true;
  getClangResourceDir := fun _ => "/usr/share/castxml/clang";
  BuildCompilation := fun _ _ w => ((c, []), w);
  Job_Print := print_job;
  CreateFromArgs := fun args _ w =>
    ((negb (has_flag "-bad-flag" args),
      mkCompilerInvocation
        (mkFrontendOptions (parse_action args) false EmptyString) args,
      if has_flag "-bad-flag" args
      then ["error: unknown argument: '-bad-flag'"] else []), w);
  createDiagnostics := fun _ w => (true, w);
  ExecuteAction := fun _ _ w =>
    match w with
    | [] => (true, [])
    | b :: w' => (b, w')
    end
|}.

Definition line (s : string) : string :=
  s ++ String Predefines.newline EmptyString.

(** Predefines as the preprocessor computes them, with both markers. *)
Definition sample_predefines : string :=
  line "#define __clang__ 1" ++ Predefines.predef_start
    ++ line "#define __llvm__ 1" ++ Predefines.predef_end
    ++ line "#define USER 1".

(** Options of an emulated compiler. *)
Definition emulation : Options :=
  mkOptions false true true EmptyString ["/inc1"; "/inc2"]
            (line "#define __GNUC__ 4") "x86_64-unknown-linux-gnu" [].

Definition cc1 (mode file : string) : Job :=
  Command "clang" ["-cc1"; mode; file].

Definition no_options : Options :=
  mkOptions false false false EmptyString [] EmptyString EmptyString [].

Definition with_output (f : string) : Options :=
  mkOptions false false false f [] EmptyString EmptyString [].

Definition source (file : string) : Job := cc1 "-fsyntax-only" file.

(** A header is precompiled, an action this file has no case for. *)
Definition header (file : string) : Job := cc1 "-emit-pch" file.

(** A job of another tool. *)
Definition assembler (file : string) : Job :=
  Command "gcc::Assemble" ["-c"; file].

Definition two_sources : list Job := [source "a.cpp"; source "b.cpp"].

Definition three_sources : list Job :=
  [source "a.cpp"; source "b.cpp"; source "c.cpp"].

Definition four_sources : list Job :=
  [source "a.cpp"; source "b.cpp"; source "c.cpp"; source "d.cpp"].

Definition header_then_source : list Job :=
  [header "a.h"; source "b.cpp"].

Definition source_assembler_source : list Job :=
  [source "a.cpp"; assembler "x.s"; source "b.cpp"].

End Scripted.

(** A Clang whose instances never get a diagnostics engine; the rest is
    as in [Scripted]. *)
Module NoDiagnostics.

Definition clang (c : Compilation) : ClangLib := {|
  World := list bool;
  InvocationRest := list string;
  Diagnostic := string;
  getDefaultTargetTriple := fun _ => "x86_64-unknown-linux-gnu";
  computeResourceDir := fun _ _ => "lib/clang/3.4";
  FileIsFullPath := fun _ _ => false;
  FileIsDirectory := fun _ _ => true;
  getClangResourceDir := fun _ => "/usr/share/castxml/clang";
  BuildCompilation := fun _ _ w => ((c, []), w);
  Job_Print := Scripted.print_job;
  CreateFromArgs := fun args _ w =>
    ((true,
      mkCompilerInvocation
        (mkFrontendOptions (Scripted.parse_action args) false EmptyString)
        args,
      ["warning: argument unused during compilation"]), w);
  createDiagnostics := fun _ w => (false, w);
  ExecuteAction := fun _ _ w => (true, w)
|}.

End NoDiagnostics.

(* ===================================================================== *)
(** ** What a log shows *)
(* ===================================================================== *)

Module Observations.
Import Run.

Section WithClang.

Context {clang : ClangLib}.

Definition is_execute (e : Event) : bool :=
  match e with
  | EvExecuteAction _ _ => true
  | _ => false
  end.

Definition is_cerr (e : Event) : bool :=
  match e with
  | EvCerr _ => true
  | _ => false
  end.

(** The argument vectors [CreateFromArgs] was called with, in order. *)
Fixpoint created_args (l : list Event) : list (list string) :=
  match l with
  | [] => []
  | EvCreateFromArgs cmdArgs :: rest => cmdArgs :: created_args rest
  | _ :: rest => created_args rest
  end.

(** The calls of [BuildCompilation], in order. *)
Fixpoint built (l : list Event) : list (Driver * list string) :=
  match l with
  | [] => []
  | EvBuildCompilation d cArgs :: rest => (d, cArgs) :: built rest
  | _ :: rest => built rest
  end.

(** The argument vector of a job the loop takes for a compiler command. *)
Definition command_arguments (i : Job) : list (list string) :=
  match dyn_cast_Command i with
  | Some (creator, arguments) =>
      if (creator =? "clang")%string then [arguments] else []
  | None => []
  end.

Definition clang_arguments (jobs : list Job) : list (list string) :=
  flat_map command_arguments jobs.

(** The two diagnostics of the loop's [else] branch. *)
Definition unexpected_reports (i : Job) : list Event :=
  [EvReport err_fe_expected_clang_command [];
   EvReport err_fe_expected_compiler_job [Job_Print i]].

(** The instance [runClangCI] has when it comes to [ExecuteAction]. *)
Definition configure (inv : CompilerInvocation InvocationRest)
                     (opts : Options) : CompilerInstance InvocationRest :=
  set_OutputFile
    (set_SkipFunctionBodies
       (set_hasDiagnostics (mkCompilerInstance inv false) true) true)
    (OutputFile opts).

(** The [switch] of [CreateFrontendAction], without its message. *)
Definition select_action (action : ActionKind) (opts : Options)
  : option FrontendAction :=
  match action with
  | PrintPreprocessedInput => Some (CastXMLPrintPreprocessedAction opts)
  | ParseSyntaxOnly => Some (CastXMLSyntaxOnlyAction opts)
  | OtherAction _ => None
  end.

(** An executed action runs on an instance with diagnostics, without
    function bodies, with the output file of the options, and is the
    action of the instance's program action, built with these options. *)
Definition configured (opts : Options) (e : Event) : Prop :=
  match e with
  | EvExecuteAction ci a =>
      let fo := FrontendOpts (getInvocation ci) in
      hasDiagnostics ci = true /\
      SkipFunctionBodies fo = true /\
      FrontendOutputFile fo = OutputFile opts /\
      select_action (ProgramAction fo) opts = Some a
  | _ => True
  end.

(** The five ways one pass through the loop body can go. *)
Inductive job_outcome (diags : DiagnosticsEngine) (opts : Options)
                      (i : Job) (w : World)
  : bool * World * list Event -> Prop :=
| unexpected :
    is_clang_command i = false ->
    job_outcome diags opts i w (false, w, unexpected_reports i)
| parse_failed (arguments : list string) inv ds w1 :
    i = Command "clang" arguments ->
    CreateFromArgs arguments diags w = ((false, inv, ds), w1) ->
    job_outcome diags opts i w
      (false, w1, EvCreateFromArgs arguments :: map EvDiagnostic ds)
| no_diagnostics (arguments : list string) inv ds w1 w2 :
    i = Command "clang" arguments ->
    CreateFromArgs arguments diags w = ((true, inv, ds), w1) ->
    createDiagnostics (mkCompilerInstance inv false) w1 = (false, w2) ->
    job_outcome diags opts i w
      (false, w2,
       (EvCreateFromArgs arguments :: map EvDiagnostic ds
          ++ [EvCreateDiagnostics])%list)
| unsupported (arguments : list string) inv ds w1 w2 code :
    i = Command "clang" arguments ->
    CreateFromArgs arguments diags w = ((true, inv, ds), w1) ->
    createDiagnostics (mkCompilerInstance inv false) w1 = (true, w2) ->
    ProgramAction (FrontendOpts inv) = OtherAction code ->
    job_outcome diags opts i w
      (false, w2,
       (EvCreateFromArgs arguments :: map EvDiagnostic ds
          ++ [EvCreateDiagnostics; unsupported_action_message code])%list)
| executed (arguments : list string) inv ds w1 w2 a b w3 :
    i = Command "clang" arguments ->
    CreateFromArgs arguments diags w = ((true, inv, ds), w1) ->
    createDiagnostics (mkCompilerInstance inv false) w1 = (true, w2) ->
    select_action (ProgramAction (FrontendOpts inv)) opts = Some a ->
    ExecuteAction (configure inv opts) a w2 = (b, w3) ->
    job_outcome diags opts i w
      (b, w3,
       (EvCreateFromArgs arguments :: map EvDiagnostic ds
          ++ [EvCreateDiagnostics; EvExecuteAction (configure inv opts) a])%list).

(** *** A job's result, from what the library answers

    A job succeeds when it is a command created by [clang], its arguments
    make a valid invocation, the instance gets its diagnostics engine,
    the program action is one of the two supported ones, and executing
    the action returns [true].  The world is handed on as the library
    calls leave it. *)
Definition job_succeeds (diags : DiagnosticsEngine) (opts : Options)
                        (i : Job) (w : World) : bool * World :=
  match i with
  | Command creator arguments =>
      if (creator =? "clang")%string then
        let '((ok, inv, _), w1) := CreateFromArgs arguments diags w in
        if ok then
          let '(has, w2) :=
            createDiagnostics (mkCompilerInstance inv false) w1 in
          if has then
            match select_action (ProgramAction (FrontendOpts inv)) opts with
            | Some a => ExecuteAction (configure inv opts) a w2
            | None => (false, w2)
            end
          else (false, w2)
        else (false, w1)
      else (false, w)
  | JobList _ => (false, w)
  end.

(** The results of the jobs of a list, each in the world the one before
    it left. *)
Fixpoint jobs_succeed (diags : DiagnosticsEngine) (opts : Options)
                      (jobs : list Job) (w : World) : list bool :=
  match jobs with
  | [] => []
  | i :: rest =>
      fst (job_succeeds diags opts i w)
        :: jobs_succeed diags opts rest (snd (job_succeeds diags opts i w))
  end.

(** The events one job leaves when it is dispatched: the two reports for
    a job that is no [clang] command; for a [clang] command the call of
    [CreateFromArgs] on its arguments, followed by events among which
    there is no other such call and no report of this file. *)
Definition dispatched (i : Job) (l : list Event) : Prop :=
  (is_clang_command i = false /\ l = unexpected_reports i) \/
  (exists arguments tail,
      i = Command "clang" arguments /\
      l = EvCreateFromArgs arguments :: tail /\
      created_args tail = [] /\
      filter is_report tail = []).

(** An event on the driver's diagnostics engine: a [Report] call of this
    file, or a diagnostic of the library. *)
Definition on_engine (e : Event) : bool :=
  match e with
  | EvReport _ _ | EvDiagnostic _ => true
  | _ => false
  end.

(** What the driver's engine receives for one job: the two reports for a
    job that is no [clang] command, and for a [clang] command what
    [CreateFromArgs] reports on its arguments. *)
Definition job_engine_events (diags : DiagnosticsEngine) (i : Job) (w : World)
  : list Event :=
  match i with
  | Command creator arguments =>
      if (creator =? "clang")%string
      then map EvDiagnostic (snd (fst (CreateFromArgs arguments diags w)))
      else unexpected_reports i
  | JobList _ => unexpected_reports i
  end.

Fixpoint engine_events (diags : DiagnosticsEngine) (opts : Options)
                       (jobs : list Job) (w : World) : list Event :=
  match jobs with
  | [] => []
  | i :: rest =>
      (job_engine_events diags i w
         ++ engine_events diags opts rest
              (snd (job_succeeds diags opts i w)))%list
  end.

End WithClang.
End Observations.

(* ===================================================================== *)
(** ** Facts about [std::string] *)
(* ===================================================================== *)

Module StringFacts.

Lemma append_nil_r (s : string) : s ++ EmptyString = s.
Proof. induction s as [|c s IH]; simpl; [reflexivity | now rewrite IH]. Qed.

Lemma append_assoc (a b c : string) : (a ++ b) ++ c = a ++ b ++ c.
Proof. induction a as [|x a IH]; simpl; [reflexivity | now rewrite IH]. Qed.

Lemma length_append (a b : string) :
  String.length (a ++ b) = String.length a + String.length b.
Proof. induction a as [|x a IH]; simpl; [reflexivity | now rewrite IH]. Qed.

Lemma prefix_append (p b : string) : prefix p (p ++ b) = true.
Proof.
  induction p as [|c p IH]; simpl; [now destruct b|].
  destruct (ascii_dec c c) as [_|ne]; [exact IH | now elim ne].
Qed.

Lemma prefix_split (p s : string) :
  prefix p s = true -> exists b, s = p ++ b.
Proof.
  revert s; induction p as [|c p IH]; intros s H.
  - now exists s.
  - destruct s as [|d s]; simpl in H; [discriminate|].
    destruct (ascii_dec c d) as [->|]; [|discriminate].
    destruct (IH s H) as [b ->]. now exists b.
Qed.

(** The first [length a] characters of [a ++ b]. *)
Lemma substring_take (a b : string) :
  substring 0 (String.length a) (a ++ b) = a.
Proof. induction a as [|c a IH]; simpl; [now destruct b | now rewrite IH]. Qed.

(** Asking for the whole length gives the whole string. *)
Lemma substring_all (s : string) : substring 0 (String.length s) s = s.
Proof. induction s as [|c s IH]; simpl; [reflexivity | now rewrite IH]. Qed.

(** What is left of [a ++ b] from position [length a] on. *)
Lemma substring_drop (a b : string) :
  substring (String.length a) (String.length b) (a ++ b) = b.
Proof. induction a as [|c a IH]; simpl; [apply substring_all | exact IH]. Qed.

(** [find] returns a position at which the pattern does occur, *)
Lemma find_Some_split (s pat : string) (i : nat) :
  find s pat = Some i ->
  exists a b, s = a ++ pat ++ b /\ String.length a = i.
Proof.
  revert i; induction s as [|c s IH]; intros i; cbn [find].
  - destruct (prefix pat EmptyString) eqn:P; [|discriminate].
    intros [= <-]. destruct (prefix_split _ _ P) as [b E].
    now exists EmptyString, b.
  - destruct (prefix pat (String c s)) eqn:P.
    + intros [= <-]. destruct (prefix_split _ _ P) as [b E].
      now exists EmptyString, b.
    + destruct (find s pat) as [j|] eqn:F; cbn [option_map]; [|discriminate].
      intros [= <-]. destruct (IH j eq_refl) as (a & b & -> & L).
      exists (String c a), b. simpl. now rewrite L.
Qed.

(** and no occurrence starts before it. *)
Lemma find_least (s pat : string) (i : nat) :
  find s pat = Some i ->
  forall a b, s = a ++ pat ++ b -> i <= String.length a.
Proof.
  revert i; induction s as [|c s IH]; intros i F a b E.
  - cbn [find] in F. destruct (prefix pat EmptyString); [|discriminate].
    injection F as <-. apply Nat.le_0_l.
  - cbn [find] in F. destruct (prefix pat (String c s)) eqn:P.
    + injection F as <-. apply Nat.le_0_l.
    + destruct a as [|d a].
      * cbn [append] in E. rewrite E, prefix_append in P. discriminate.
      * cbn [append] in E. injection E as _ E.
        destruct (find s pat) as [j|] eqn:Fj; cbn [option_map] in F;
          [|discriminate].
        injection F as <-. simpl. apply le_n_S. now apply (IH j eq_refl a b).
Qed.

(** [npos] is returned exactly when the pattern does not occur. *)
Lemma find_None_iff (s pat : string) :
  find s pat = None <-> ~ occurs_in pat s.
Proof.
  split.
  - intros F (a & b & E).
    revert a E; induction s as [|c s IH]; intros a E; cbn [find] in F.
    + destruct a; [|discriminate]. cbn [append] in E.
      now rewrite E, prefix_append in F.
    + destruct (prefix pat (String c s)) eqn:P; [discriminate|].
      destruct a as [|d a].
      * cbn [append] in E. rewrite E, prefix_append in P. discriminate.
      * cbn [append] in E. injection E as _ E.
        destruct (find s pat) eqn:Fs; [discriminate|].
        now apply (IH eq_refl a).
  - intros N. destruct (find s pat) as [i|] eqn:F; [|reflexivity].
    destruct (find_Some_split _ _ _ F) as (a & b & E & _).
    elim N. now exists a, b.
Qed.

Lemma find_occurs (s pat : string) :
  occurs_in pat s -> exists i, find s pat = Some i.
Proof.
  intros O. destruct (find s pat) as [i|] eqn:F; [now exists i|].
  now apply find_None_iff in F.
Qed.

(** [s.substr(0, n)] never throws; within the string it is the first [n]
    characters. *)
Lemma substr_0_take (a b : string) :
  substr (a ++ b) 0 (Some (String.length a)) = Ok a.
Proof.
  unfold substr. simpl. rewrite Nat.sub_0_r, length_append.
  rewrite Nat.min_l by lia. now rewrite substring_take.
Qed.

(** [s.substr(pos)] with [pos] inside the string is the rest of it. *)
Lemma substr_drop (a b : string) :
  substr (a ++ b) (String.length a) None = Ok b.
Proof.
  unfold substr. rewrite length_append.
  replace (Nat.ltb (String.length a + String.length b) (String.length a))
    with false by (symmetry; apply Nat.ltb_ge; lia).
  replace (String.length a + String.length b - String.length a)
    with (String.length b) by lia.
  now rewrite substring_drop.
Qed.

End StringFacts.

(* ===================================================================== *)
(** ** [UpdatePredefines] *)
(* ===================================================================== *)

Module PredefinesFacts.
Import StringFacts Predefines.

(** With both markers found, [UpdatePredefines] returns the text up to
    the end of the first [predef_start], the configured predefines, and
    the text from the first [predef_end] on. *)
Lemma UpdatePredefines_found (Opts : Options) (p a b c d : string) :
  find p predef_start = Some (String.length a) ->
  find p predef_end = Some (String.length c) ->
  p = a ++ predef_start ++ b ->
  p = c ++ predef_end ++ d ->
  UpdatePredefines Opts p
  = Ok ((a ++ predef_start) ++ Predefines Opts ++ (predef_end ++ d)).
Proof.
  intros Fs Fe Es Ee. unfold UpdatePredefines. rewrite Fs, Fe.
  assert (X : substr p 0 (Some (String.length a + sizeof predef_start - 1))
              = Ok (a ++ predef_start)).
  { rewrite Es, <- append_assoc.
    replace (String.length a + sizeof predef_start - 1)
      with (String.length (a ++ predef_start))
      by (rewrite length_append; unfold sizeof; lia).
    apply substr_0_take. }
  assert (Y : substr p (String.length c) None = Ok (predef_end ++ d)).
  { rewrite Ee. apply substr_drop. }
  rewrite X, Y. reflexivity.
Qed.

Lemma UpdatePredefines_not_found (Opts : Options) (p : string) :
  find p predef_start = None \/ find p predef_end = None ->
  UpdatePredefines Opts p = Ok (p ++ Predefines Opts).
Proof.
  intros [F|F]; unfold UpdatePredefines; rewrite F.
  - reflexivity.
  - now destruct (find p predef_start).
Qed.

(** The two markers cannot overlap: none ends with a character the
    other starts with. *)
Example markers_first_last :
  (get 0 predef_start, get 18 predef_start,
   get 0 predef_end, get 22 predef_end)
  = (Some "#"%char, Some newline, Some "#"%char, Some newline).
Proof. reflexivity. Qed.

(** C1. For every predefines text that contains both marker lines and
    every replacement text, the result is [X ++ R ++ Y]: [X] is the text
    up to and including the first built-in marker line, [Y] the text from
    the first command-line marker on, both kept whole, so that the
    replacement stands between the built-in marker line that ends [X] and
    the command-line marker that starts [Y]. *)
Theorem UpdatePredefines_splice (Opts : Options) (predefines : string) :
  occurs_in predef_start predefines ->
  occurs_in predef_end predefines ->
  exists a b c d : string,
    predefines = a ++ predef_start ++ b /\
    (forall a' b', predefines = a' ++ predef_start ++ b' ->
                   String.length a <= String.length a') /\
    predefines = c ++ predef_end ++ d /\
    (forall c' d', predefines = c' ++ predef_end ++ d' ->
                   String.length c <= String.length c') /\
    UpdatePredefines Opts predefines
    = Ok ((a ++ predef_start) ++ Predefines Opts ++ (predef_end ++ d)).
Proof.
  intros Os Oe.
  destruct (find_occurs _ _ Os) as [s Fs].
  destruct (find_occurs _ _ Oe) as [e Fe].
  destruct (find_Some_split _ _ _ Fs) as (a & b & Es & Ls).
  destruct (find_Some_split _ _ _ Fe) as (c & d & Ee & Le).
  exists a, b, c, d. repeat split.
  - exact Es.
  - intros a' b' E'. rewrite Ls. exact (find_least _ _ _ Fs a' b' E').
  - exact Ee.
  - intros c' d' E'. rewrite Le. exact (find_least _ _ _ Fe c' d' E').
  - subst s e. now apply (UpdatePredefines_found Opts predefines a b c d).
Qed.

Lemma UpdatePredefines_splice_witness :
  exists a b c d : string,
    Scripted.sample_predefines = a ++ predef_start ++ b /\
    (forall a' b', Scripted.sample_predefines = a' ++ predef_start ++ b' ->
                   String.length a <= String.length a') /\
    Scripted.sample_predefines = c ++ predef_end ++ d /\
    (forall c' d', Scripted.sample_predefines = c' ++ predef_end ++ d' ->
                   String.length c <= String.length c') /\
    UpdatePredefines Scripted.emulation Scripted.sample_predefines
    = Ok ((a ++ predef_start) ++ Predefines Scripted.emulation
            ++ (predef_end ++ d)).
Proof.
  apply (UpdatePredefines_splice Scripted.emulation
           Scripted.sample_predefines).
  - exists (Scripted.line "#define __clang__ 1"),
      (Scripted.line "#define __llvm__ 1" ++ predef_end
         ++ Scripted.line "#define USER 1").
    reflexivity.
  - exists (Scripted.line "#define __clang__ 1" ++ predef_start
              ++ Scripted.line "#define __llvm__ 1"),
      (Scripted.line "#define USER 1").
    reflexivity.
Defined.

(** On the sample, the forced built-ins between the markers are gone and
    the configured predefines stand in their place. *)
Example UpdatePredefines_sample :
  UpdatePredefines Scripted.emulation Scripted.sample_predefines
  = Ok (Scripted.line "#define __clang__ 1" ++ predef_start
          ++ Scripted.line "#define __GNUC__ 4" ++ predef_end
          ++ Scripted.line "#define USER 1").
Proof. reflexivity. Qed.

(** The command-line marker may come first: the result still is the text
    up to the built-in marker line, the replacement, and the text from the
    command-line marker on. *)
Example UpdatePredefines_markers_swapped :
  UpdatePredefines Scripted.emulation
    ("A" ++ predef_end ++ "M" ++ predef_start ++ "B")
  = Ok (("A" ++ predef_end ++ "M" ++ predef_start)
          ++ Predefines Scripted.emulation
          ++ (predef_end ++ "M" ++ predef_start ++ "B")).
Proof. reflexivity. Qed.

(** C2. For every predefines text in which at least one of the two
    markers is absent, [UpdatePredefines] returns (it does not throw) the
    original text with the replacement text appended at the end, and
    [BeginSourceFileAction] installs that text and returns [true]. *)
Theorem UpdatePredefines_fallback (Opts : Options) (predefines : string) :
  ~ occurs_in predef_start predefines \/ ~ occurs_in predef_end predefines ->
  UpdatePredefines Opts predefines = Ok (predefines ++ Predefines Opts) /\
  (HaveCC Opts = true ->
   BeginSourceFileAction Opts predefines
   = Ok (predefines ++ Predefines Opts, true)).
Proof.
  intros H.
  assert (U : UpdatePredefines Opts predefines
              = Ok (predefines ++ Predefines Opts)).
  { apply UpdatePredefines_not_found.
    destruct H as [H|H]; [left|right]; now apply find_None_iff. }
  split; [exact U|].
  intros CC. unfold BeginSourceFileAction. now rewrite CC, U.
Qed.

Lemma UpdatePredefines_fallback_witness :
  UpdatePredefines Scripted.emulation "#define USER 1"
  = Ok ("#define USER 1" ++ Predefines Scripted.emulation) /\
  (HaveCC Scripted.emulation = true ->
   BeginSourceFileAction Scripted.emulation "#define USER 1"
   = Ok ("#define USER 1" ++ Predefines Scripted.emulation, true)).
Proof.
  apply (UpdatePredefines_fallback Scripted.emulation "#define USER 1").
  left. apply find_None_iff. reflexivity.
Defined.

(** Only the command-line marker present: the fallback as well. *)
Example UpdatePredefines_one_marker :
  UpdatePredefines Scripted.emulation ("A" ++ predef_end ++ "B")
  = Ok ("A" ++ predef_end ++ "B" ++ Predefines Scripted.emulation).
Proof. reflexivity. Qed.

(** C10. For every predefines text and every configured replacement
    text, [UpdatePredefines] returns a text in which the replacement
    occurs whole, as one contiguous block, in the splice branch and in
    the append branch alike. *)
Theorem UpdatePredefines_keeps_replacement
    (Opts : Options) (predefines : string) :
  exists out : string,
    UpdatePredefines Opts predefines = Ok out /\
    occurs_in (Predefines Opts) out.
Proof.
  destruct (find predefines predef_start) as [s|] eqn:Fs.
  - destruct (find predefines predef_end) as [e|] eqn:Fe.
    + destruct (find_Some_split _ _ _ Fs) as (a & b & Es & Ls).
      destruct (find_Some_split _ _ _ Fe) as (c & d & Ee & Le).
      subst s e. eexists. split.
      * now apply (UpdatePredefines_found Opts predefines a b c d).
      * now exists (a ++ predef_start), (predef_end ++ d).
    + exists (predefines ++ Predefines Opts). split.
      * apply UpdatePredefines_not_found. now right.
      * exists predefines, EmptyString. now rewrite append_nil_r.
  - exists (predefines ++ Predefines Opts). split.
    + apply UpdatePredefines_not_found. now left.
    + exists predefines, EmptyString. now rewrite append_nil_r.
Qed.

End PredefinesFacts.

(* ===================================================================== *)
(** ** The driver code: the job loop *)
(* ===================================================================== *)

Module RunFacts.
Import Run Observations.

Section WithClang.

Context {clang : ClangLib}.

Variable diags : DiagnosticsEngine.
Variable opts : Options.

(** Running [bind m k] is running [m], then [k] on its value in the
    world it left; the logs follow each other. *)
Lemma bind_run {A B : Type} (m : M A) (k : A -> M B) (w : World) :
  bind m k w
  = (value (k (value (m w)) (world (m w))),
     world (k (value (m w)) (world (m w))),
     (log (m w) ++ log (k (value (m w)) (world (m w))))%list).
Proof.
  unfold bind, value, world, log.
  destruct (m w) as [[a w1] l1]. simpl.
  destruct (k a w1) as [[b w2] l2]. reflexivity.
Qed.

Lemma triple_eta {A : Type} (r : A * World * list Event) :
  r = (value r, world r, log r).
Proof. now destruct r as [[a w] l]. Qed.

(** The loop body changes [result] by a conjunction with the job's own
    result; what it does to the world and what it logs do not depend on
    [result]. *)
Lemma loop_body_and (i : Job) (result : bool) (w : World) :
  loop_body diags opts i result w
  = (value (job_run diags opts i w) && result,
     world (job_run diags opts i w),
     log (job_run diags opts i w)).
Proof.
  unfold job_run, loop_body.
  destruct (dyn_cast_Command i) as [[creator arguments]|]; [|reflexivity].
  destruct (creator =? "clang")%string; [|reflexivity].
  unfold bind, call_reporting.
  destruct (CreateFromArgs arguments diags w) as [[[ok inv] ds] w1].
  destruct ok; [|reflexivity].
  destruct (runClangCI (mkCompilerInstance inv false) opts w1)
    as [[b w2] l2].
  unfold ret, value, world, log; cbn [fst snd]. now rewrite andb_true_r.
Qed.

(** The loop: [result] ends as the conjunction of its initial value and
    of every job's result; every job of the list is run, in list order. *)
Lemma for_jobs_run (jobs : list Job) (result : bool) (w : World) :
  for_jobs diags opts jobs result w
  = (forallb id (job_results diags opts jobs w) && result,
     jobs_world diags opts jobs w,
     concat (job_logs diags opts jobs w)).
Proof.
  revert result w; induction jobs as [|i rest IH]; intros result w.
  - reflexivity.
  - cbn [for_jobs]. rewrite bind_run, loop_body_and.
    unfold value, world, log; cbn [fst snd].
    rewrite IH; cbn [fst snd].
    cbn [job_results job_logs jobs_world forallb concat].
    unfold value, world, log, id at 2.
    f_equal. f_equal.
    destruct (fst (fst (job_run diags opts i w))); simpl.
    + reflexivity.
    + now rewrite andb_false_r.
Qed.

Lemma job_results_app (l1 l2 : list Job) (w : World) :
  job_results diags opts (l1 ++ l2) w
  = (job_results diags opts l1 w
       ++ job_results diags opts l2 (jobs_world diags opts l1 w))%list.
Proof.
  revert w; induction l1 as [|i l1 IH]; intros w; simpl;
    [reflexivity | now rewrite IH].
Qed.

Lemma job_logs_app (l1 l2 : list Job) (w : World) :
  job_logs diags opts (l1 ++ l2) w
  = (job_logs diags opts l1 w
       ++ job_logs diags opts l2 (jobs_world diags opts l1 w))%list.
Proof.
  revert w; induction l1 as [|i l1 IH]; intros w; simpl;
    [reflexivity | now rewrite IH].
Qed.

Lemma jobs_world_app (l1 l2 : list Job) (w : World) :
  jobs_world diags opts (l1 ++ l2) w
  = jobs_world diags opts l2 (jobs_world diags opts l1 w).
Proof.
  revert w; induction l1 as [|i l1 IH]; intros w; simpl;
    [reflexivity | now rewrite IH].
Qed.

(** A job that is not a [clang] command: two diagnostics, [false], and
    the world as it was. *)
Lemma loop_body_unexpected (i : Job) (result : bool) (w : World) :
  is_clang_command i = false ->
  loop_body diags opts i result w
  = (false, w,
     [EvReport err_fe_expected_clang_command [];
      EvReport err_fe_expected_compiler_job [Job_Print i]]).
Proof.
  unfold is_clang_command, loop_body.
  destruct (dyn_cast_Command i) as [[creator arguments]|].
  - intros ->. reflexivity.
  - reflexivity.
Qed.

(** A [clang] command whose invocation asks for an action without a case
    in [CreateFrontendAction]: the message, and [false]. *)
Lemma loop_body_unsupported
    (arguments : list string) (inv : CompilerInvocation InvocationRest)
    (ds : list Diagnostic) (code : Z) (result : bool) (w w1 w2 : World) :
  CreateFromArgs arguments diags w = ((true, inv, ds), w1) ->
  createDiagnostics (mkCompilerInstance inv false) w1 = (true, w2) ->
  ProgramAction (FrontendOpts inv) = OtherAction code ->
  loop_body diags opts (Command "clang" arguments) result w
  = (false, w2,
     (EvCreateFromArgs arguments :: map EvDiagnostic ds
        ++ [EvCreateDiagnostics; unsupported_action_message code])%list).
Proof.
  intros HC HD HA. unfold loop_body. cbn [dyn_cast_Command].
  change ("clang" =? "clang")%string with true. cbv iota.
  unfold bind, call_reporting. rewrite HC. cbv beta iota.
  unfold runClangCI, bind, call. rewrite HD. cbv beta iota.
  unfold CreateFrontendAction, set_OutputFile, set_SkipFunctionBodies,
    set_hasDiagnostics.
  cbn [getInvocation FrontendOpts ProgramAction hasDiagnostics negb].
  cbv zeta. cbn [getInvocation FrontendOpts ProgramAction hasDiagnostics negb].
  rewrite HA. reflexivity.
Qed.

(** The first part of [runClangImpl]: one call of [BuildCompilation]. *)
Lemma runClangImpl_driver_run (args : list string) (w : World) :
  runClangImpl_driver args opts w
  = ((diagsEngine,
      fst (fst (BuildCompilation (the_driver w) (driver_args args opts) w))),
     snd (BuildCompilation (the_driver w) (driver_args args opts) w),
     EvParseDiagnosticArgs args
       :: EvBuildCompilation (the_driver w) (driver_args args opts)
       :: map EvDiagnostic
            (snd (fst (BuildCompilation (the_driver w)
                         (driver_args args opts) w)))).
Proof.
  unfold runClangImpl_driver, the_driver, driver_args, runClangCreateDiagnostics.
  unfold bind, read, emit, ret, call_reporting, push_back, insert_end.
  cbn [ResourceDir app].
  destruct (negb (FileIsFullPath (c_str (computeResourceDir "clang" w)) w)
            || negb (FileIsDirectory (c_str (computeResourceDir "clang" w)) w)).
  - destruct (PPOnly opts);
      match goal with
      | |- context [BuildCompilation ?d ?a w] =>
          destruct (BuildCompilation d a w) as [[c ds] w1]
      end; cbn [app fst snd]; rewrite ?app_nil_r; reflexivity.
  - destruct (PPOnly opts);
      match goal with
      | |- context [BuildCompilation ?d ?a w] =>
          destruct (BuildCompilation d a w) as [[c ds] w1]
      end; cbn [app fst snd]; rewrite ?app_nil_r; reflexivity.
Qed.

(** A diagnostic of the library is no dispatch of a job and no report of
    this file. *)
Lemma diagnostics_quiet (ds : list Diagnostic) :
  existsb is_dispatch_event (map EvDiagnostic ds) = false /\
  existsb is_report (map EvDiagnostic ds) = false /\
  filter is_report (map EvDiagnostic ds) = [].
Proof. induction ds as [|d ds IH]; simpl; [repeat split | exact IH]. Qed.

(** The second part of [runClangImpl], branch by branch. *)
Lemma runClangImpl_jobs_run (c : Compilation) (w : World) :
  runClangImpl_jobs diags c opts w
  = if hasArg_HASH_HASH_HASH c then (0%Z, w, [EvPrintJobs (getJobs c)])
    else if output_conflict c opts then
      (1%Z, w, [EvReport err_drv_output_argument_with_multiple_files []])
    else
      (if forallb id (job_results diags opts (getJobs c) w) then 0%Z else 1%Z,
       jobs_world diags opts (getJobs c) w,
       concat (job_logs diags opts (getJobs c) w)).
Proof.
  unfold runClangImpl_jobs, output_conflict.
  destruct (hasArg_HASH_HASH_HASH c); [reflexivity|].
  destruct (negb (empty (OutputFile opts))
            && Nat.ltb 1 (List.length (getJobs c))); [reflexivity|].
  rewrite bind_run, for_jobs_run. unfold value, world, log, ret; cbn [fst snd].
  now rewrite andb_true_r, app_nil_r.
Qed.

Lemma created_args_app (l1 l2 : list Event) :
  created_args (l1 ++ l2) = (created_args l1 ++ created_args l2)%list.
Proof.
  induction l1 as [|e l1 IH]; [reflexivity|].
  destruct e; cbn [app created_args]; now rewrite IH.
Qed.

Lemma built_app (l1 l2 : list Event) :
  built (l1 ++ l2) = (built l1 ++ built l2)%list.
Proof.
  induction l1 as [|e l1 IH]; [reflexivity|].
  destruct e; cbn [app built]; now rewrite IH.
Qed.

(** Diagnostics of the library are no calls of [CreateFromArgs] or
    [BuildCompilation], no executions and no text on [std::cerr]. *)
Lemma diagnostics_are_no_calls (ds : list Diagnostic) :
  created_args (map EvDiagnostic ds) = [] /\
  built (map EvDiagnostic ds) = [] /\
  filter is_execute (map EvDiagnostic ds) = [] /\
  filter is_cerr (map EvDiagnostic ds) = [].
Proof. induction ds as [|d ds IH]; simpl; [repeat split | exact IH]. Qed.

(** Every pass through the loop body is one of the five outcomes. *)
Lemma job_run_outcome (i : Job) (w : World) :
  job_outcome diags opts i w (job_run diags opts i w).
Proof.
  destruct (is_clang_command i) eqn:K.
  - destruct i as [creator arguments|]; [|discriminate].
    cbn in K. apply String.eqb_eq in K. subst creator.
    unfold job_run, loop_body. cbn [dyn_cast_Command].
    change ("clang" =? "clang")%string with true. cbv iota.
    unfold bind, call_reporting.
    destruct (CreateFromArgs arguments diags w) as [[[ok inv] ds] w1] eqn:HC.
    destruct ok.
    2:{ apply (eq_ind _ (job_outcome diags opts _ w)
                 (parse_failed diags opts _ w arguments inv ds w1 eq_refl HC)).
        unfold ret; cbv beta iota. now rewrite app_nil_r. }
    destruct inv as [[action skip file] rest].
    unfold runClangCI, bind, call.
    destruct (createDiagnostics
                (mkCompilerInstance
                   (mkCompilerInvocation (mkFrontendOptions action skip file)
                      rest) false) w1)
      as [has w2] eqn:HD.
    destruct has.
    2:{ apply (eq_ind _ (job_outcome diags opts _ w)
                 (no_diagnostics diags opts _ w arguments _ ds w1 w2
                    eq_refl HC HD)).
        unfold ret; cbv beta iota.
        cbn [set_hasDiagnostics hasDiagnostics negb app].
        now rewrite ?app_nil_r. }
    unfold CreateFrontendAction, set_OutputFile, set_SkipFunctionBodies,
      set_hasDiagnostics.
    cbn [getInvocation FrontendOpts ProgramAction hasDiagnostics negb
         SkipFunctionBodies FrontendOutputFile OtherOpts].
    destruct action as [| |code].
    + unfold ret.
      match goal with
      | |- context [ExecuteAction ?ci ?a w2] =>
          destruct (ExecuteAction ci a w2) as [b w3] eqn:HE
      end.
      apply (eq_ind _ (job_outcome diags opts _ w)
               (executed diags opts _ w arguments
                  (mkCompilerInvocation
                     (mkFrontendOptions PrintPreprocessedInput skip file) rest)
                  ds w1 w2 _ b w3 eq_refl HC HD eq_refl HE)).
      cbv beta iota. cbn [app]. now rewrite ?app_nil_r, andb_true_r.
    + unfold ret.
      match goal with
      | |- context [ExecuteAction ?ci ?a w2] =>
          destruct (ExecuteAction ci a w2) as [b w3] eqn:HE
      end.
      apply (eq_ind _ (job_outcome diags opts _ w)
               (executed diags opts _ w arguments
                  (mkCompilerInvocation
                     (mkFrontendOptions ParseSyntaxOnly skip file) rest)
                  ds w1 w2 _ b w3 eq_refl HC HD eq_refl HE)).
      cbv beta iota. cbn [app]. now rewrite ?app_nil_r, andb_true_r.
    + apply (eq_ind _ (job_outcome diags opts _ w)
               (unsupported diags opts _ w arguments
                  (mkCompilerInvocation
                     (mkFrontendOptions (OtherAction code) skip file) rest)
                  ds w1 w2 code eq_refl HC HD eq_refl)).
      unfold bind, emit, ret, unsupported_action_message.
      cbv beta iota. cbn [app]. now rewrite ?app_nil_r.
  - unfold job_run. rewrite (loop_body_unexpected i true w K).
    now apply unexpected.
Qed.

(** The result the loop body gives a job, and the world it leaves, are
    those of [job_succeeds]. *)
Lemma job_run_succeeds (i : Job) (w : World) :
  (value (job_run diags opts i w), world (job_run diags opts i w))
  = job_succeeds diags opts i w.
Proof.
  pose proof (job_run_outcome i w) as O.
  remember (job_run diags opts i w) as r eqn:E.
  destruct O as [K | arguments inv ds w1 Hi HC
                | arguments inv ds w1 w2 Hi HC HD
                | arguments inv ds w1 w2 code Hi HC HD HA
                | arguments inv ds w1 w2 a b w3 Hi HC HD HA HE];
    unfold value, world; cbn [fst snd]; try subst i;
    unfold job_succeeds;
    try (change ("clang" =? "clang")%string with true; cbv iota;
         rewrite HC; cbv beta iota; try rewrite HD; cbv beta iota;
         try rewrite HA; cbn [select_action]; cbv beta iota;
         try rewrite HE; reflexivity).
  destruct i as [creator arguments|]; [|reflexivity].
  unfold is_clang_command in K. cbn [dyn_cast_Command] in K.
  now rewrite K.
Qed.

Lemma job_results_succeed (jobs : list Job) (w : World) :
  job_results diags opts jobs w = jobs_succeed diags opts jobs w.
Proof.
  revert w; induction jobs as [|i rest IH]; intros w; [reflexivity|].
  cbn [job_results jobs_succeed].
  pose proof (job_run_succeeds i w) as S. rewrite <- S. cbn [fst snd].
  now rewrite IH.
Qed.

(** Every job of the list leaves its events, in list order. *)
Lemma job_logs_dispatched (jobs : list Job) (w : World) :
  Forall2 dispatched jobs (job_logs diags opts jobs w).
Proof.
  revert w; induction jobs as [|i rest IH]; intros w; [constructor|].
  cbn [job_logs]. constructor; [|apply IH].
  pose proof (job_run_outcome i w) as O.
  remember (job_run diags opts i w) as r eqn:E.
  destruct O as [K | arguments inv ds w1 Hi HC
                | arguments inv ds w1 w2 Hi HC HD
                | arguments inv ds w1 w2 code Hi HC HD HA
                | arguments inv ds w1 w2 a b w3 Hi HC HD HA HE];
    unfold log; cbn [snd]; [now left | right ..];
    eexists arguments, _; (split; [exact Hi|]); (split; [reflexivity|]);
    rewrite ?created_args_app, ?filter_app;
    destruct (diagnostics_are_no_calls ds) as (C & _);
    destruct (diagnostics_quiet ds) as (_ & _ & R);
    rewrite ?C, ?R; split; reflexivity.
Qed.

End WithClang.

(** [runClangImpl] is its first part followed by its second. *)
Lemma runClangImpl_run {clang : ClangLib}
    (opts : Options) (args : list string) (w : World) :
  runClangImpl args opts w
  = (value (runClangImpl_jobs diagsEngine (compilation args opts w) opts
              (world_built args opts w)),
     world (runClangImpl_jobs diagsEngine (compilation args opts w) opts
              (world_built args opts w)),
     (log (runClangImpl_driver args opts w)
        ++ log (runClangImpl_jobs diagsEngine (compilation args opts w) opts
                  (world_built args opts w)))%list).
Proof.
  unfold runClangImpl, compilation, world_built. rewrite bind_run.
  destruct (value (runClangImpl_driver args opts w)) as [d c] eqn:E.
  destruct d. reflexivity.
Qed.

Lemma forallb_id_Forall (l : list bool) :
  forallb id l = true <-> Forall (fun b => b = true) l.
Proof.
  induction l as [|b l IH]; simpl.
  - split; [constructor | reflexivity].
  - rewrite andb_true_iff, IH. unfold id. split.
    + intros [Hb Hl]. now constructor.
    + intros H. inversion H; subst. now split.
Qed.

(** The first part of a run dispatches nothing and reports nothing. *)
Lemma driver_log_quiet {clang : ClangLib}
    (opts : Options) (args : list string) (w : World) :
  existsb is_dispatch_event (log (runClangImpl_driver args opts w)) = false /\
  existsb is_report (log (runClangImpl_driver args opts w)) = false.
Proof.
  rewrite runClangImpl_driver_run. unfold log; cbn [snd].
  cbn [existsb is_dispatch_event is_report orb].
  split; apply diagnostics_quiet.
Qed.

(** C3. The exit code is 0 if and only if no driver-level check failed
    and every dispatched job succeeded; it is 1 otherwise.  A job succeeds
    when it is a [clang] command, [CreateFromArgs] accepts its arguments,
    the instance gets its diagnostics engine, the program action is
    supported and [ExecuteAction] returns [true] ([job_succeeds]).  The
    value returned is the conjunction of these results, and every
    dispatched job is dispatched: it has its piece of the log, in list
    order. *)
Theorem exit_code_conjunction {clang : ClangLib}
    (args : list string) (opts : Options) (w : World) :
  let c := compilation args opts w in
  let results :=
    jobs_succeed diagsEngine opts (dispatched_jobs c opts)
                 (world_built args opts w) in
  let run := runClangImpl args opts w in
  (value run = 0%Z <->
   driver_precondition_failed c opts = false /\
   Forall (fun b => b = true) results) /\
  value run = (if driver_precondition_failed c opts then 1%Z
               else if forallb id results then 0%Z else 1%Z) /\
  (exists pieces : list (list Event),
      log run
      = (log (runClangImpl_driver args opts w)
           ++ (if hasArg_HASH_HASH_HASH c then [EvPrintJobs (getJobs c)]
               else if output_conflict c opts then
                 [EvReport err_drv_output_argument_with_multiple_files []]
               else [])
           ++ concat pieces)%list /\
      Forall2 dispatched (dispatched_jobs c opts) pieces).
Proof.
  intros c results run.
  assert (V : value run
              = (if driver_precondition_failed c opts then 1%Z
                 else if forallb id results then 0%Z else 1%Z) /\
              log run
              = (log (runClangImpl_driver args opts w)
                   ++ (if hasArg_HASH_HASH_HASH c
                       then [EvPrintJobs (getJobs c)]
                       else if output_conflict c opts then
                         [EvReport
                            err_drv_output_argument_with_multiple_files []]
                       else [])
                   ++ concat (job_logs diagsEngine opts
                                (dispatched_jobs c opts)
                                (world_built args opts w)))%list).
  { subst run results. rewrite runClangImpl_run.
    fold c. rewrite runClangImpl_jobs_run.
    unfold driver_precondition_failed, dispatched_jobs.
    destruct (hasArg_HASH_HASH_HASH c); [split; reflexivity|].
    destruct (output_conflict c opts); [split; reflexivity|].
    rewrite job_results_succeed. split; reflexivity. }
  destruct V as [V L]. split; [|split; [exact V|]].
  - rewrite V, <- forallb_id_Forall.
    destruct (driver_precondition_failed c opts).
    + split; [discriminate | intros [? _]; discriminate].
    + destruct (forallb id results).
      * split; [now split | reflexivity].
      * split; [discriminate | intros [_ ?]; discriminate].
  - exists (job_logs diagsEngine opts (dispatched_jobs c opts)
              (world_built args opts w)).
    split; [exact L | apply job_logs_dispatched].
Qed.

(** Four jobs of which the third fails: exit code 1. *)
Example aggregate_one_failure :
  let cl := Scripted.clang (mkCompilation false Scripted.four_sources) in
  let run :=
    runClangImpl (clang := cl) ["a.cpp"; "b.cpp"; "c.cpp"; "d.cpp"]
                 Scripted.no_options [true; true; false; true] in
  jobs_succeed (clang := cl) diagsEngine Scripted.no_options
               Scripted.four_sources [true; true; false; true]
  = [true; true; false; true] /\
  value run = 1%Z /\
  List.length (filter is_dispatch_event (log run)) = 12.
Proof. repeat split. Qed.

(** Three jobs that all succeed: exit code 0. *)
Example aggregate_all_succeed :
  let cl := Scripted.clang (mkCompilation false Scripted.three_sources) in
  let run :=
    runClangImpl (clang := cl) ["a.cpp"; "b.cpp"; "c.cpp"]
                 Scripted.no_options [true; true; true] in
  jobs_succeed (clang := cl) diagsEngine Scripted.no_options
               Scripted.three_sources [true; true; true]
  = [true; true; true] /\
  value run = 0%Z.
Proof. repeat split. Qed.

(** A job of another tool, a command with a rejected argument and a
    header among sources: each of them fails, the sources succeed. *)
Example jobs_succeed_mixed :
  let jobs :=
    [Scripted.source "a.cpp"; Scripted.assembler "x.s";
     Command "clang" ["-cc1"; "-bad-flag"; "b.cpp"];
     Scripted.header "c.h"; Scripted.source "d.cpp"] in
  let cl := Scripted.clang (mkCompilation false jobs) in
  jobs_succeed (clang := cl) diagsEngine Scripted.no_options jobs [true; true]
  = [true; false; false; false; true] /\
  value (runClangImpl (clang := cl) [] Scripted.no_options [true; true])
  = 1%Z.
Proof. repeat split. Qed.

(** C5. When the parsed arguments have the print-jobs flag, the run
    prints the job list and returns 0 at once, whatever the options and
    the jobs are; nothing is dispatched, this file reports nothing, and
    the world is left as the driver left it. *)
Theorem dry_run_exits_0 {clang : ClangLib}
    (args : list string) (opts : Options) (w : World) :
  hasArg_HASH_HASH_HASH (compilation args opts w) = true ->
  runClangImpl args opts w
  = (0%Z, world_built args opts w,
     (log (runClangImpl_driver args opts w)
        ++ [EvPrintJobs (getJobs (compilation args opts w))])%list) /\
  existsb is_dispatch_event (log (runClangImpl args opts w)) = false /\
  existsb is_report (log (runClangImpl args opts w)) = false /\
  dispatched_jobs (compilation args opts w) opts = [].
Proof.
  intros H.
  assert (E : runClangImpl args opts w
              = (0%Z, world_built args opts w,
                 (log (runClangImpl_driver args opts w)
                    ++ [EvPrintJobs (getJobs (compilation args opts w))])%list)).
  { rewrite runClangImpl_run, runClangImpl_jobs_run, H. reflexivity. }
  destruct (driver_log_quiet opts args w) as [Q1 Q2].
  repeat split.
  - exact E.
  - rewrite E. unfold log at 1; cbn [snd].
    now rewrite existsb_app, Q1.
  - rewrite E. unfold log at 1; cbn [snd].
    now rewrite existsb_app, Q2.
  - unfold dispatched_jobs. now rewrite H.
Qed.

(** A dry run with an output file and two jobs. *)
Lemma dry_run_exits_0_witness :
  let cl := Scripted.clang (mkCompilation true Scripted.two_sources) in
  let args := ["-###"; "-o"; "out.xml"; "a.cpp"; "b.cpp"] in
  let opts := Scripted.with_output "out.xml" in
  runClangImpl (clang := cl) args opts []
  = (0%Z, world_built (clang := cl) args opts [],
     (log (runClangImpl_driver (clang := cl) args opts [])
        ++ [EvPrintJobs
              (getJobs (compilation (clang := cl) args opts []))])%list) /\
  existsb is_dispatch_event (log (runClangImpl (clang := cl) args opts []))
  = false /\
  existsb is_report (log (runClangImpl (clang := cl) args opts [])) = false /\
  dispatched_jobs (compilation (clang := cl) args opts []) opts = [].
Proof.
  intros cl args opts.
  apply (dry_run_exits_0 (clang := cl) args opts []).
  reflexivity.
Defined.

(** C4, as stated, fails on a dry run: with an output file and two jobs
    the run prints the jobs and returns 0, and no diagnostic is reported. *)
Lemma output_conflict_dry_run_counterexample :
  let c := mkCompilation true Scripted.two_sources in
  let cl := Scripted.clang c in
  let args := ["-###"; "-o"; "out.xml"; "a.cpp"; "b.cpp"] in
  let opts := Scripted.with_output "out.xml" in
  let run := runClangImpl (clang := cl) args opts [] in
  empty (OutputFile opts) = false /\
  1 < List.length (getJobs (compilation (clang := cl) args opts [])) /\
  value run = 0%Z /\
  value run <> 1%Z /\
  existsb is_report (log run) = false.
Proof. cbv. repeat split; [lia | discriminate]. Qed.

(** C4, amended. If an output file is configured, the driver computes
    more than one job and the print-jobs flag is not among the parsed
    arguments, the run returns 1 after the one diagnostic
    [err_drv_output_argument_with_multiple_files]; no job is dispatched,
    so no frontend action is executed, and the world is left as the driver
    left it. *)
Theorem output_conflict_fails {clang : ClangLib}
    (args : list string) (opts : Options) (w : World) :
  hasArg_HASH_HASH_HASH (compilation args opts w) = false ->
  empty (OutputFile opts) = false ->
  1 < List.length (getJobs (compilation args opts w)) ->
  runClangImpl args opts w
  = (1%Z, world_built args opts w,
     (log (runClangImpl_driver args opts w)
        ++ [EvReport err_drv_output_argument_with_multiple_files []])%list) /\
  existsb is_dispatch_event (log (runClangImpl args opts w)) = false /\
  dispatched_jobs (compilation args opts w) opts = [].
Proof.
  intros H O J.
  assert (C : output_conflict (compilation args opts w) opts = true).
  { unfold output_conflict. rewrite O. simpl. now apply Nat.ltb_lt. }
  assert (E : runClangImpl args opts w
              = (1%Z, world_built args opts w,
                 (log (runClangImpl_driver args opts w)
                    ++ [EvReport
                          err_drv_output_argument_with_multiple_files []])%list)).
  { rewrite runClangImpl_run, runClangImpl_jobs_run, H, C. reflexivity. }
  destruct (driver_log_quiet opts args w) as [Q1 _].
  repeat split.
  - exact E.
  - rewrite E. unfold log at 1; cbn [snd].
    now rewrite existsb_app, Q1.
  - unfold dispatched_jobs. now rewrite H, C.
Qed.

Lemma output_conflict_fails_witness :
  let cl := Scripted.clang (mkCompilation false Scripted.two_sources) in
  let args := ["-o"; "out.xml"; "a.cpp"; "b.cpp"] in
  let opts := Scripted.with_output "out.xml" in
  runClangImpl (clang := cl) args opts [true; true]
  = (1%Z, world_built (clang := cl) args opts [true; true],
     (log (runClangImpl_driver (clang := cl) args opts [true; true])
        ++ [EvReport err_drv_output_argument_with_multiple_files []])%list) /\
  existsb is_dispatch_event
    (log (runClangImpl (clang := cl) args opts [true; true])) = false /\
  dispatched_jobs (compilation (clang := cl) args opts [true; true]) opts = [].
Proof.
  intros cl args opts.
  apply (output_conflict_fails (clang := cl) args opts [true; true]).
  - reflexivity.
  - reflexivity.
  - simpl. lia.
Defined.

(** The [for] loop over the include directories appends, for each, the
    flag and the directory as a C string. *)
Lemma push_isystem (includes : list string) (args : list string) :
  fold_left (fun args i => push_back (push_back args "-isystem") (c_str i))
            includes args
  = (args ++ flat_map (fun dir => ["-isystem"; c_str dir]) includes)%list.
Proof.
  revert args; induction includes as [|dir includes IH]; intros args; simpl.
  - now rewrite app_nil_r.
  - rewrite IH. unfold push_back. now rewrite <- !app_assoc.
Qed.

(** A string without NUL is its own C string. *)
Lemma c_str_no_nul (s : string) : has_nul s = false -> c_str s = s.
Proof.
  induction s as [|c s IH]; [reflexivity|]. cbn [has_nul c_str].
  destruct (Ascii.eqb c Ascii.zero); [discriminate|].
  cbn [orb]. intros H. now rewrite IH.
Qed.

Lemma isystem_no_nul (includes : list string) :
  Forall (fun dir => has_nul dir = false) includes ->
  flat_map (fun dir => ["-isystem"; c_str dir]) includes
  = flat_map (fun dir => ["-isystem"; dir]) includes.
Proof.
  induction 1 as [|dir includes N _ IH]; [reflexivity|].
  cbn [flat_map]. now rewrite IH, (c_str_no_nul dir N).
Qed.

(** The vector of [runClang], in both modes. *)
Lemma runClang_args_eq (args : list string) (opts : Options) :
  runClang_args args opts
  = (args ++ (if HaveCC opts then emulation_tokens opts else []))%list.
Proof.
  unfold runClang_args, emulation_tokens. destruct (HaveCC opts).
  - rewrite push_isystem. unfold push_back.
    destruct (empty (Triple opts)); simpl; now rewrite <- ?app_assoc.
  - now rewrite app_nil_r.
Qed.

(** C6. When emulation of an external compiler is requested, the vector
    handed to [runClangImpl] is the caller's vector, token for token,
    followed by [-target] and the triple (only when the triple is not
    empty), [-nostdinc], [-isystem] and the directory for each include
    directory in its original order, and [-undef].  The triple and the
    directories are handed on as C strings; they are the triple and the
    directories themselves when these hold no NUL. *)
Theorem runClang_emulation_tokens {clang : ClangLib}
    (args : list string) (opts : Options) :
  HaveCC opts = true ->
  runClang_args args opts
  = (args
       ++ (if empty (Triple opts) then []
           else ["-target"; c_str (Triple opts)])
       ++ ["-nostdinc"]
       ++ flat_map (fun dir => ["-isystem"; c_str dir]) (Includes opts)
       ++ ["-undef"])%list /\
  (no_nul_options opts ->
   runClang_args args opts
   = (args
        ++ (if empty (Triple opts) then [] else ["-target"; Triple opts])
        ++ ["-nostdinc"]
        ++ flat_map (fun dir => ["-isystem"; dir]) (Includes opts)
        ++ ["-undef"])%list) /\
  runClang args opts = runClangImpl (args ++ emulation_tokens opts)%list opts.
Proof.
  intros H.
  assert (E : runClang_args args opts = (args ++ emulation_tokens opts)%list).
  { now rewrite runClang_args_eq, H. }
  split; [exact E|]. split.
  - intros [NT NI]. rewrite E. unfold emulation_tokens.
    now rewrite (isystem_no_nul _ NI), (c_str_no_nul _ NT).
  - unfold runClang. now rewrite E.
Qed.

Lemma runClang_emulation_tokens_witness :
  let cl := Scripted.clang (mkCompilation false Scripted.two_sources) in
  let args := ["a.cpp"; "b.cpp"] in
  let opts := Scripted.emulation in
  runClang_args args opts
  = (args
       ++ (if empty (Triple opts) then []
           else ["-target"; c_str (Triple opts)])
       ++ ["-nostdinc"]
       ++ flat_map (fun dir => ["-isystem"; c_str dir]) (Includes opts)
       ++ ["-undef"])%list /\
  runClang_args args opts
  = (args
       ++ (if empty (Triple opts) then [] else ["-target"; Triple opts])
       ++ ["-nostdinc"]
       ++ flat_map (fun dir => ["-isystem"; dir]) (Includes opts)
       ++ ["-undef"])%list /\
  runClang (clang := cl) args opts
  = runClangImpl (clang := cl) (args ++ emulation_tokens opts)%list opts.
Proof.
  intros cl args opts.
  destruct (runClang_emulation_tokens (clang := cl) args opts eq_refl)
    as (A & B & C).
  split; [exact A|]. split; [|exact C].
  apply B. split; [reflexivity | repeat constructor].
Defined.

(** A triple with a NUL in it: the token is what stands before the NUL;
    a triple that begins with a NUL is not empty and gives an empty
    token. *)
Example runClang_args_nul :
  runClang_args ["file1.cpp"]
    (mkOptions false false true EmptyString ["/inc" ++ String Ascii.zero "x"]
               EmptyString ("x86" ++ String Ascii.zero "junk") [])
  = ["file1.cpp"; "-target"; "x86"; "-nostdinc"; "-isystem"; "/inc"; "-undef"]
  /\
  runClang_args ["file1.cpp"]
    (mkOptions false false true EmptyString []
               EmptyString (String Ascii.zero "junk") [])
  = ["file1.cpp"; "-target"; EmptyString; "-nostdinc"; "-undef"].
Proof. split; reflexivity. Qed.

(** Include directories [A; B; C], no triple. *)
Example runClang_args_three_includes :
  runClang_args ["-x"; "c++"; "file1.cpp"]
    (mkOptions false false true EmptyString ["A"; "B"; "C"]
               EmptyString EmptyString [])
  = ["-x"; "c++"; "file1.cpp"; "-nostdinc";
     "-isystem"; "A"; "-isystem"; "B"; "-isystem"; "C"; "-undef"].
Proof. reflexivity. Qed.

(** A triple and two include directories. *)
Example runClang_args_emulation :
  runClang_args ["file1.cpp"] Scripted.emulation
  = ["file1.cpp"; "-target"; "x86_64-unknown-linux-gnu"; "-nostdinc";
     "-isystem"; "/inc1"; "-isystem"; "/inc2"; "-undef"].
Proof. reflexivity. Qed.

(** C7. When emulation is disabled, the vector handed to [runClangImpl]
    is the caller's vector exactly, for every vector; [runClang] is then
    [runClangImpl] on it.  The vector is built from the caller's as a new
    value. *)
Theorem runClang_no_emulation {clang : ClangLib}
    (args : list string) (opts : Options) :
  HaveCC opts = false ->
  runClang_args args opts = args /\
  runClang args opts = runClangImpl args opts.
Proof.
  intros H. unfold runClang, runClang_args. rewrite H. now split.
Qed.

Lemma runClang_no_emulation_witness :
  let cl := Scripted.clang (mkCompilation false [Scripted.source "file1.cpp"]) in
  let args := ["-x"; "c++"; "-std=c++11"; "file1.cpp"] in
  runClang_args args Scripted.no_options = args /\
  runClang (clang := cl) args Scripted.no_options
  = runClangImpl (clang := cl) args Scripted.no_options.
Proof.
  intros cl args.
  apply (runClang_no_emulation (clang := cl) args Scripted.no_options).
  reflexivity.
Defined.

(** C8, as stated, fails: after the message for the unsupported action
    of the first job, the second job is created and executed; only the
    exit code is lost. *)
Lemma unsupported_action_counterexample :
  let cl := Scripted.clang (mkCompilation false Scripted.header_then_source) in
  let run :=
    runClangImpl (clang := cl) ["a.h"; "b.cpp"] Scripted.no_options [true] in
  value run = 1%Z /\
  In (unsupported_action_message (clang := cl) 16) (log run) /\
  aborted_on_unsupported_action (log run) = false /\
  filter is_dispatch_event (events_after_cerr (log run))
  = [EvCreateFromArgs ["-cc1"; "-fsyntax-only"; "b.cpp"];
     EvCreateDiagnostics;
     EvExecuteAction
       (mkCompilerInstance
          (mkCompilerInvocation
             (mkFrontendOptions ParseSyntaxOnly true EmptyString)
             ["-cc1"; "-fsyntax-only"; "b.cpp"])
          true)
       (CastXMLSyntaxOnlyAction Scripted.no_options)] /\
  world run = [].
Proof.
  cbv. repeat split. do 4 right. left. reflexivity.
Qed.

(** C8, amended. An unsupported program action fails its job and,
    through the conjunction, the run: after the message naming the action
    code the job's result is [false] and the exit code is 1 whatever the
    other jobs return.  The loop goes on: every job after it is
    dispatched, in list order, as it would be from the world the failed
    job left. *)
Theorem unsupported_action_fails_job_only {clang : ClangLib}
    (diags : DiagnosticsEngine) (opts : Options) (c : Compilation)
    (pre post : list Job) (arguments : list string)
    (inv : CompilerInvocation InvocationRest) (ds : list Diagnostic)
    (code : Z) (w w1 w2 : World) :
  hasArg_HASH_HASH_HASH c = false ->
  output_conflict c opts = false ->
  getJobs c = (pre ++ Command "clang" arguments :: post)%list ->
  CreateFromArgs arguments diags (jobs_world diags opts pre w)
  = ((true, inv, ds), w1) ->
  createDiagnostics (mkCompilerInstance inv false) w1 = (true, w2) ->
  ProgramAction (FrontendOpts inv) = OtherAction code ->
  runClangImpl_jobs diags c opts w
  = (1%Z, jobs_world diags opts post w2,
     (concat (job_logs diags opts pre w)
        ++ (EvCreateFromArgs arguments :: map EvDiagnostic ds
              ++ [EvCreateDiagnostics; unsupported_action_message code])
        ++ concat (job_logs diags opts post w2))%list) /\
  job_results diags opts (getJobs c) w
  = (job_results diags opts pre w
       ++ false :: job_results diags opts post w2)%list.
Proof.
  intros H O J HC HD HA.
  pose proof (loop_body_unsupported diags opts arguments inv ds code true
                _ _ _ HC HD HA) as B.
  assert (R : job_results diags opts (getJobs c) w
              = (job_results diags opts pre w
                   ++ false :: job_results diags opts post w2)%list).
  { rewrite J, job_results_app. cbn [job_results]. unfold job_run.
    rewrite B. reflexivity. }
  split; [|exact R].
  rewrite runClangImpl_jobs_run, H, O, R.
  rewrite J, job_logs_app, jobs_world_app.
  cbn [job_logs jobs_world]. unfold job_run. rewrite B.
  unfold value, world, log; cbn [fst snd].
  rewrite forallb_app. cbn [forallb id]. unfold id at 2.
  rewrite andb_false_r, concat_app. reflexivity.
Qed.

Lemma unsupported_action_fails_job_only_witness :
  let c := mkCompilation false Scripted.header_then_source in
  let cl := Scripted.clang c in
  let opts := Scripted.no_options in
  runClangImpl_jobs (clang := cl) diagsEngine c opts [true]
  = (1%Z,
     jobs_world (clang := cl) diagsEngine opts [Scripted.source "b.cpp"] [true],
     (concat (job_logs (clang := cl) diagsEngine opts [] [true])
        ++ [EvCreateFromArgs ["-cc1"; "-emit-pch"; "a.h"];
            EvCreateDiagnostics;
            unsupported_action_message 16]
        ++ concat (job_logs (clang := cl) diagsEngine opts
                     [Scripted.source "b.cpp"] [true]))%list) /\
  job_results (clang := cl) diagsEngine opts (getJobs c) [true]
  = (job_results (clang := cl) diagsEngine opts [] [true]
       ++ false :: job_results (clang := cl) diagsEngine opts
                     [Scripted.source "b.cpp"] [true])%list.
Proof.
  intros c cl opts.
  apply (unsupported_action_fails_job_only (clang := cl) diagsEngine opts c
           [] [Scripted.source "b.cpp"] ["-cc1"; "-emit-pch"; "a.h"]
           (mkCompilerInvocation
              (mkFrontendOptions (OtherAction 16) false EmptyString)
              ["-cc1"; "-emit-pch"; "a.h"])
           [] 16 [true] [true] [true]);
    reflexivity.
Defined.

(** C9. For every job of the list that is not a [clang] command, the
    loop body takes the job's printed description, reports exactly the
    two diagnostics [err_fe_expected_clang_command] and
    [err_fe_expected_compiler_job], the second carrying that description,
    and sets [result] to [false]; the loop then goes on with every
    remaining job, in list order. *)
Theorem unexpected_job_reported {clang : ClangLib}
    (diags : DiagnosticsEngine) (opts : Options)
    (pre post : list Job) (i : Job) (result : bool) (w : World) :
  is_clang_command i = false ->
  loop_body diags opts i result w
  = (false, w,
     [EvReport err_fe_expected_clang_command [];
      EvReport err_fe_expected_compiler_job [Job_Print i]]) /\
  for_jobs diags opts (pre ++ i :: post) result w
  = (false,
     jobs_world diags opts post (jobs_world diags opts pre w),
     (concat (job_logs diags opts pre w)
        ++ [EvReport err_fe_expected_clang_command [];
            EvReport err_fe_expected_compiler_job [Job_Print i]]
        ++ concat (job_logs diags opts post (jobs_world diags opts pre w)))%list) /\
  job_results diags opts (pre ++ i :: post) w
  = (job_results diags opts pre w
       ++ false :: job_results diags opts post (jobs_world diags opts pre w))%list.
Proof.
  intros N.
  assert (B : forall r w', loop_body diags opts i r w'
              = (false, w',
                 [EvReport err_fe_expected_clang_command [];
                  EvReport err_fe_expected_compiler_job [Job_Print i]])).
  { intros r w'. now apply loop_body_unexpected. }
  assert (R : job_results diags opts (pre ++ i :: post) w
              = (job_results diags opts pre w
                   ++ false :: job_results diags opts post
                                 (jobs_world diags opts pre w))%list).
  { rewrite job_results_app. cbn [job_results]. unfold job_run.
    rewrite B. reflexivity. }
  repeat split.
  - apply B.
  - rewrite for_jobs_run, R, job_logs_app, jobs_world_app.
    cbn [job_logs jobs_world]. unfold job_run. rewrite B.
    unfold value, world, log; cbn [fst snd].
    rewrite forallb_app. cbn [forallb id]. unfold id at 2.
    rewrite andb_false_r, concat_app. reflexivity.
  - exact R.
Qed.

Lemma unexpected_job_reported_witness :
  let cl := Scripted.clang (mkCompilation false Scripted.source_assembler_source) in
  let opts := Scripted.no_options in
  let pre := [Scripted.source "a.cpp"] in
  let post := [Scripted.source "b.cpp"] in
  let i := Scripted.assembler "x.s" in
  let w := [true; true] in
  loop_body (clang := cl) diagsEngine opts i true w
  = (false, w,
     [EvReport err_fe_expected_clang_command [];
      EvReport err_fe_expected_compiler_job [Job_Print (ClangLib := cl) i]]) /\
  for_jobs (clang := cl) diagsEngine opts (pre ++ i :: post) true w
  = (false,
     jobs_world (clang := cl) diagsEngine opts post
       (jobs_world (clang := cl) diagsEngine opts pre w),
     (concat (job_logs (clang := cl) diagsEngine opts pre w)
        ++ [EvReport err_fe_expected_clang_command [];
            EvReport err_fe_expected_compiler_job
              [Job_Print (ClangLib := cl) i]]
        ++ concat (job_logs (clang := cl) diagsEngine opts post
                     (jobs_world (clang := cl) diagsEngine opts pre w)))%list) /\
  job_results (clang := cl) diagsEngine opts (pre ++ i :: post) w
  = (job_results (clang := cl) diagsEngine opts pre w
       ++ false :: job_results (clang := cl) diagsEngine opts post
                     (jobs_world (clang := cl) diagsEngine opts pre w))%list.
Proof.
  intros cl opts pre post i w.
  apply (unexpected_job_reported (clang := cl) diagsEngine opts pre post i
           true w).
  reflexivity.
Defined.

(** A job of another tool between two sources: both sources are run, the
    exit code is 1. *)
Example unexpected_job_between_sources :
  let cl := Scripted.clang (mkCompilation false Scripted.source_assembler_source) in
  let run :=
    runClangImpl (clang := cl) ["a.cpp"; "x.s"; "b.cpp"]
                 Scripted.no_options [true; true] in
  value run = 1%Z /\
  world run = [] /\
  filter is_report (log run)
  = [EvReport err_fe_expected_clang_command [];
     EvReport err_fe_expected_compiler_job ["gcc::Assemble -c x.s"]].
Proof. cbv. repeat split. Qed.

End RunFacts.

(* ===================================================================== *)
(** ** Further properties of the predefines and of the run *)
(* ===================================================================== *)

Module MoreFacts.
Import Run Observations StringFacts RunFacts.

(** A decomposition at the first occurrence gives the position [find]
    returns. *)
Lemma find_first_occurrence (s pat a b : string) :
  s = a ++ pat ++ b ->
  (forall a' b', s = a' ++ pat ++ b' -> String.length a <= String.length a') ->
  find s pat = Some (String.length a).
Proof.
  intros E L.
  destruct (find_occurs s pat) as [i F]; [now exists a, b|].
  destruct (find_Some_split _ _ _ F) as (a0 & b0 & E0 & L0).
  pose proof (find_least _ _ _ F a b E) as Up.
  pose proof (L a0 b0 E0) as Lo.
  rewrite F. f_equal. lia.
Qed.

Section WithClang.

Context {clang : ClangLib}.

Variable diags : DiagnosticsEngine.
Variable opts : Options.

Lemma command_arguments_not_clang (i : Job) :
  is_clang_command i = false -> command_arguments i = [].
Proof.
  unfold is_clang_command, command_arguments.
  destruct (dyn_cast_Command i) as [[creator arguments]|]; [|reflexivity].
  now intros ->.
Qed.

Lemma diagnostics_configured (ds : list Diagnostic) :
  Forall (configured opts) (map EvDiagnostic ds).
Proof. induction ds as [|d ds IH]; simpl; constructor; [exact I | exact IH]. Qed.

(** Rewriting with what is known of the library's diagnostics. *)
Ltac through_diagnostics ds :=
  let DC := fresh in let DB := fresh in let DX := fresh in
  let DE := fresh in let DR := fresh in
  destruct (diagnostics_are_no_calls ds) as (DC & DB & DX & DE);
  destruct (diagnostics_quiet ds) as (_ & _ & DR);
  cbn [created_args built filter is_report is_execute is_cerr];
  rewrite ?created_args_app, ?built_app, ?filter_app,
    ?DC, ?DB, ?DX, ?DE, ?DR;
  cbn [created_args built filter is_report is_execute is_cerr app
       List.length unsupported_action_message].

(** What one pass through the loop body leaves in the log. *)
Lemma job_log_facts (i : Job) (w : World) :
  let l := log (job_run diags opts i w) in
  created_args l = command_arguments i /\
  built l = [] /\
  filter is_report l
  = (if is_clang_command i then [] else unexpected_reports i) /\
  List.length (filter is_execute l) <= List.length (command_arguments i) /\
  Forall (configured opts) l.
Proof.
  pose proof (job_run_outcome diags opts i w) as O.
  remember (job_run diags opts i w) as r eqn:E.
  destruct O as [K | arguments inv ds w1 Hi HC
                | arguments inv ds w1 w2 Hi HC HD
                | arguments inv ds w1 w2 code Hi HC HD HA
                | arguments inv ds w1 w2 a b w3 Hi HC HD HA HE];
    unfold log; cbn [snd].
  - rewrite K, (command_arguments_not_clang i K).
    repeat split; try reflexivity; repeat constructor.
  - subst i.
    change (command_arguments (Command "clang" arguments)) with [arguments].
    change (is_clang_command (Command "clang" arguments)) with true.
    through_diagnostics ds.
    repeat split; try reflexivity; try apply Nat.le_0_l.
    constructor; [exact I | apply diagnostics_configured].
  - subst i.
    change (command_arguments (Command "clang" arguments)) with [arguments].
    change (is_clang_command (Command "clang" arguments)) with true.
    through_diagnostics ds.
    repeat split; try reflexivity; try apply Nat.le_0_l.
    constructor; [exact I|]. apply Forall_app. split.
    + apply diagnostics_configured.
    + repeat constructor.
  - subst i.
    change (command_arguments (Command "clang" arguments)) with [arguments].
    change (is_clang_command (Command "clang" arguments)) with true.
    through_diagnostics ds.
    repeat split; try reflexivity; try apply Nat.le_0_l.
    constructor; [exact I|]. apply Forall_app. split.
    + apply diagnostics_configured.
    + repeat constructor.
  - subst i.
    change (command_arguments (Command "clang" arguments)) with [arguments].
    change (is_clang_command (Command "clang" arguments)) with true.
    through_diagnostics ds.
    repeat split; try reflexivity; try apply Nat.le_refl.
    constructor; [exact I|]. apply Forall_app. split.
    + apply diagnostics_configured.
    + repeat constructor; try exact I. exact HA.
Qed.

(** The same over the whole list of jobs. *)
Lemma job_logs_facts (jobs : list Job) (w : World) :
  let l := concat (job_logs diags opts jobs w) in
  created_args l = clang_arguments jobs /\
  built l = [] /\
  filter is_report l
  = flat_map unexpected_reports
      (filter (fun i => negb (is_clang_command i)) jobs) /\
  List.length (filter is_execute l) <= List.length (clang_arguments jobs) /\
  Forall (configured opts) l.
Proof.
  revert w; induction jobs as [|i rest IH]; intros w.
  - repeat split; try reflexivity; try apply Nat.le_refl; constructor.
  - cbn [job_logs concat].
    destruct (job_log_facts i w) as (C & B & R & X & F).
    destruct (IH (world (job_run diags opts i w))) as (C' & B' & R' & X' & F').
    cbv zeta in *. repeat split.
    + rewrite created_args_app, C, C'. reflexivity.
    + rewrite built_app, B, B'. reflexivity.
    + rewrite filter_app, R, R'. cbn [filter].
      destruct (is_clang_command i); reflexivity.
    + rewrite filter_app, length_app.
      unfold clang_arguments in *. cbn [flat_map]. rewrite length_app. lia.
    + apply Forall_app. now split.
Qed.

(** Jobs that all succeed were all executed, and this file had nothing
    to report on them. *)
Lemma all_true_all_executed (jobs : list Job) (w : World) :
  forallb id (job_results diags opts jobs w) = true ->
  forallb is_clang_command jobs = true /\
  List.length (filter is_execute (concat (job_logs diags opts jobs w)))
  = List.length jobs /\
  filter is_report (concat (job_logs diags opts jobs w)) = [] /\
  filter is_cerr (concat (job_logs diags opts jobs w)) = [].
Proof.
  revert w; induction jobs as [|i rest IH]; intros w T.
  - repeat split.
  - cbn [job_results forallb] in T. apply andb_true_iff in T as [Ti Tr].
    destruct (IH _ Tr) as (K' & X' & R' & C').
    cbn [job_logs concat forallb List.length].
    rewrite !filter_app, length_app, X', R', C'.
    pose proof (job_run_outcome diags opts i w) as O.
    remember (job_run diags opts i w) as r eqn:E.
    unfold id in Ti.
    destruct O as [K | arguments inv ds w1 Hi HC
                  | arguments inv ds w1 w2 Hi HC HD
                  | arguments inv ds w1 w2 code Hi HC HD HA
                  | arguments inv ds w1 w2 a b w3 Hi HC HD HA HE];
      unfold value in Ti; cbn [fst] in Ti; try discriminate.
    subst i. unfold log; cbn [snd]. rewrite K'.
    change (is_clang_command (Command "clang" arguments)) with true.
    through_diagnostics ds. repeat split.
Qed.

End WithClang.

(** X4. [runClangImpl] calls [BuildCompilation] exactly once.  The driver
    is named [clang], has the host's default triple, the output name
    [dummy.out] and the engine of the run; its resource directory is the
    one its constructor computed when that, read as a C string, is the
    full path of a directory, and [getClangResourceDir()] otherwise.  The
    vector is [<clang>], the arguments in their order, and last [-E] when
    [PPOnly] is set, [-fsyntax-only] when it is not. *)
Theorem BuildCompilation_called_once {clang : ClangLib} (opts : Options)
    (args : list string) (w : World) :
  let dir := computeResourceDir "clang" w in
  built (log (runClangImpl args opts w))
  = [(mkDriver "clang" (getDefaultTargetTriple w) "dummy.out" diagsEngine
               (if FileIsFullPath (c_str dir) w
                   && FileIsDirectory (c_str dir) w
                then dir else getClangResourceDir w),
      ("<clang>" :: args
         ++ [if PPOnly opts then "-E" else "-fsyntax-only"])%list)].
Proof.
  intros dir. rewrite runClangImpl_run. unfold log at 1; cbn [snd].
  rewrite built_app, runClangImpl_driver_run. unfold log at 1; cbn [snd built].
  assert (J : built (log (runClangImpl_jobs diagsEngine
                            (compilation args opts w) opts
                            (world_built args opts w))) = []).
  { rewrite runClangImpl_jobs_run.
    destruct (hasArg_HASH_HASH_HASH (compilation args opts w)); [reflexivity|].
    destruct (output_conflict (compilation args opts w) opts); [reflexivity|].
    unfold log; cbn [snd]. apply job_logs_facts. }
  rewrite J.
  destruct (diagnostics_are_no_calls
              (snd (fst (BuildCompilation (the_driver w)
                           (driver_args args opts) w)))) as (_ & B & _).
  rewrite B. unfold the_driver, driver_args, set_ResourceDir.
  cbn [ResourceDir ClangExecutable DefaultTargetTriple DefaultImageName
       Diags app].
  fold dir.
  destruct (FileIsFullPath (c_str dir) w), (FileIsDirectory (c_str dir) w);
    reflexivity.
Qed.

(** X6. [runClangImpl] returns 0 or 1, nothing else. *)
Theorem exit_code_0_or_1 {clang : ClangLib} (opts : Options)
    (args : list string) (w : World) :
  value (runClangImpl args opts w) = 0%Z \/
  value (runClangImpl args opts w) = 1%Z.
Proof.
  rewrite runClangImpl_run, runClangImpl_jobs_run. unfold value at 1 3.
  destruct (hasArg_HASH_HASH_HASH (compilation args opts w));
    [now left|].
  destruct (output_conflict (compilation args opts w) opts); [now right|].
  cbn [fst].
  destruct (forallb id _); [now left | now right].
Qed.

(** X7. When the driver computes no job at all and the run is not a dry
    run, [runClangImpl] returns 0 and does nothing after the compilation
    is built, with or without an output file. *)
Theorem no_jobs_exit_0 {clang : ClangLib} (opts : Options)
    (args : list string) (w : World) :
  hasArg_HASH_HASH_HASH (compilation args opts w) = false ->
  getJobs (compilation args opts w) = [] ->
  runClangImpl args opts w
  = (0%Z, world_built args opts w, log (runClangImpl_driver args opts w)).
Proof.
  intros H J. rewrite runClangImpl_run, runClangImpl_jobs_run, H.
  unfold output_conflict. rewrite J. cbn [List.length Nat.ltb Nat.leb].
  rewrite andb_false_r. unfold value, world, log; cbn [fst snd].
  cbn [job_results job_logs jobs_world forallb concat].
  now rewrite app_nil_r.
Qed.

(** X8. With exactly one job and no dry run the output file is no
    obstacle: the job is run, the exit code is 0 when its result is [true]
    and 1 when it is [false], and the log is the job's. *)
Theorem single_job_runs
    {clang : ClangLib} (diags : DiagnosticsEngine) (opts : Options)
    (c : Compilation) (i : Job) (w : World) :
  hasArg_HASH_HASH_HASH c = false ->
  getJobs c = [i] ->
  runClangImpl_jobs diags c opts w
  = (if value (job_run diags opts i w) then 0%Z else 1%Z,
     world (job_run diags opts i w),
     log (job_run diags opts i w)).
Proof.
  intros H J. rewrite runClangImpl_jobs_run, H.
  unfold output_conflict. rewrite J. cbn [List.length Nat.ltb Nat.leb].
  rewrite andb_false_r.
  cbn [job_results job_logs jobs_world forallb concat].
  unfold id at 1. now rewrite andb_true_r, app_nil_r.
Qed.

(** X9. A [clang] command whose arguments [CreateFromArgs] rejects gets
    the result [false] without the frontend being run for it: after the
    call and what it reported through the driver's engine there is no
    diagnostics engine for an instance and no action; the loop goes on
    with the jobs after it. *)
Theorem parse_failure_fails_job
    {clang : ClangLib} (diags : DiagnosticsEngine) (opts : Options)
    (pre post : list Job) (arguments : list string)
    (inv : CompilerInvocation InvocationRest) (ds : list Diagnostic)
    (result : bool) (w w1 : World) :
  CreateFromArgs arguments diags (jobs_world diags opts pre w)
  = ((false, inv, ds), w1) ->
  for_jobs diags opts (pre ++ Command "clang" arguments :: post) result w
  = (false, jobs_world diags opts post w1,
     (concat (job_logs diags opts pre w)
        ++ (EvCreateFromArgs arguments :: map EvDiagnostic ds)
        ++ concat (job_logs diags opts post w1))%list).
Proof.
  intros HC.
  assert (B : job_run diags opts (Command "clang" arguments)
                (jobs_world diags opts pre w)
              = (false, w1, EvCreateFromArgs arguments :: map EvDiagnostic ds)).
  { unfold job_run, loop_body. cbn [dyn_cast_Command].
    change ("clang" =? "clang")%string with true. cbv iota.
    unfold bind, call_reporting. rewrite HC. unfold ret; cbv beta iota.
    now rewrite app_nil_r. }
  rewrite for_jobs_run, job_results_app, job_logs_app, jobs_world_app.
  cbn [job_results job_logs jobs_world]. rewrite B.
  unfold value, world, log; cbn [fst snd].
  rewrite forallb_app. cbn [forallb id]. unfold id at 2.
  rewrite andb_false_r, concat_app. reflexivity.
Qed.

(** X10. A [clang] command for whose instance no diagnostics engine can
    be created gets the result [false] at once: no action is selected, no
    message is written, nothing is executed; the loop goes on with the
    jobs after it. *)
Theorem no_diagnostics_fails_job
    {clang : ClangLib} (diags : DiagnosticsEngine) (opts : Options)
    (pre post : list Job) (arguments : list string)
    (inv : CompilerInvocation InvocationRest) (ds : list Diagnostic)
    (result : bool) (w w1 w2 : World) :
  CreateFromArgs arguments diags (jobs_world diags opts pre w)
  = ((true, inv, ds), w1) ->
  createDiagnostics (mkCompilerInstance inv false) w1 = (false, w2) ->
  for_jobs diags opts (pre ++ Command "clang" arguments :: post) result w
  = (false, jobs_world diags opts post w2,
     (concat (job_logs diags opts pre w)
        ++ (EvCreateFromArgs arguments :: map EvDiagnostic ds
              ++ [EvCreateDiagnostics])
        ++ concat (job_logs diags opts post w2))%list).
Proof.
  intros HC HD.
  assert (B : job_run diags opts (Command "clang" arguments)
                (jobs_world diags opts pre w)
              = (false, w2,
                 (EvCreateFromArgs arguments :: map EvDiagnostic ds
                    ++ [EvCreateDiagnostics])%list)).
  { unfold job_run, loop_body. cbn [dyn_cast_Command].
    change ("clang" =? "clang")%string with true. cbv iota.
    unfold bind, call_reporting. rewrite HC. cbv beta iota.
    unfold runClangCI, bind, call. rewrite HD. unfold ret; cbv beta iota.
    cbn [set_hasDiagnostics hasDiagnostics negb app].
    now rewrite ?app_nil_r. }
  rewrite for_jobs_run, job_results_app, job_logs_app, jobs_world_app.
  cbn [job_results job_logs jobs_world]. rewrite B.
  unfold value, world, log; cbn [fst snd].
  rewrite forallb_app. cbn [forallb id]. unfold id at 2.
  rewrite andb_false_r, concat_app. reflexivity.
Qed.

(** X11. Every [clang] command of the job list is handed to
    [CreateFromArgs] exactly once, in list order, and nothing else is,
    whatever the other jobs are and however they end. *)
Theorem every_command_created_once
    {clang : ClangLib} (diags : DiagnosticsEngine) (opts : Options)
    (jobs : list Job) (result : bool) (w : World) :
  created_args (log (for_jobs diags opts jobs result w))
  = clang_arguments jobs.
Proof.
  rewrite for_jobs_run. unfold log; cbn [snd]. apply job_logs_facts.
Qed.

(** X12. During the loop the driver's diagnostics engine receives, job
    by job in list order, the two reports of the [else] branch for a job
    that is not a [clang] command, and for a [clang] command exactly what
    [CreateFromArgs] reports through it; the [Report] calls of this file
    are those pairs and no other. *)
Theorem loop_reports
    {clang : ClangLib} (diags : DiagnosticsEngine) (opts : Options)
    (jobs : list Job) (result : bool) (w : World) :
  filter on_engine (log (for_jobs diags opts jobs result w))
  = engine_events diags opts jobs w /\
  filter is_report (log (for_jobs diags opts jobs result w))
  = flat_map unexpected_reports
      (filter (fun i => negb (is_clang_command i)) jobs).
Proof.
  rewrite for_jobs_run. unfold log; cbn [snd].
  split; [|apply job_logs_facts].
  revert w; induction jobs as [|i rest IH]; intros w; [reflexivity|].
  cbn [job_logs concat engine_events]. rewrite filter_app, IH.
  rewrite <- (job_run_succeeds diags opts i w). cbn [snd]. f_equal.
  pose proof (job_run_outcome diags opts i w) as O.
  remember (job_run diags opts i w) as r eqn:E.
  assert (D : forall ds, filter on_engine (map EvDiagnostic ds)
                         = map EvDiagnostic ds).
  { induction ds as [|d ds IHd]; simpl; [reflexivity | now rewrite IHd]. }
  destruct O as [K | arguments inv ds w1 Hi HC
                | arguments inv ds w1 w2 Hi HC HD
                | arguments inv ds w1 w2 code Hi HC HD HA
                | arguments inv ds w1 w2 a b w3 Hi HC HD HA HE];
    unfold log; cbn [snd]; try subst i;
    try (unfold job_engine_events;
         change ("clang" =? "clang")%string with true; cbv iota;
         rewrite HC; cbn [fst snd filter on_engine];
         rewrite ?filter_app, D; cbn [filter on_engine];
         unfold unsupported_action_message; cbn [filter on_engine];
         now rewrite ?app_nil_r).
  destruct i as [creator arguments|]; [|reflexivity].
  unfold is_clang_command in K. cbn [dyn_cast_Command] in K.
  unfold job_engine_events. now rewrite K.
Qed.

(** X13. Whatever action a run executes, it executes on an instance that
    has diagnostics, skips function bodies and has the output file of the
    options, and the action is the one for the instance's program action,
    built with the options of the run. *)
Theorem executed_actions_configured {clang : ClangLib} (opts : Options)
    (args : list string) (w : World) :
  Forall (configured opts) (log (runClangImpl args opts w)).
Proof.
  rewrite runClangImpl_run. unfold log at 1; cbn [snd].
  apply Forall_app. split.
  - rewrite runClangImpl_driver_run. unfold log; cbn [snd].
    constructor; [exact I|]. constructor; [exact I|].
    apply diagnostics_configured.
  - rewrite runClangImpl_jobs_run.
    destruct (hasArg_HASH_HASH_HASH (compilation args opts w));
      [repeat constructor|].
    destruct (output_conflict (compilation args opts w) opts);
      [repeat constructor|].
    unfold log; cbn [snd]. apply job_logs_facts.
Qed.

(** X14. When a run that is not a dry run returns 0, every job of the
    list was a [clang] command and was executed: there is one
    [ExecuteAction] for each job; this file made none of its [Report]
    calls and did not write its message to [std::cerr]. *)
Theorem success_means_all_executed
    {clang : ClangLib} (diags : DiagnosticsEngine) (opts : Options)
    (c : Compilation) (w : World) :
  hasArg_HASH_HASH_HASH c = false ->
  value (runClangImpl_jobs diags c opts w) = 0%Z ->
  forallb is_clang_command (getJobs c) = true /\
  List.length (filter is_execute (log (runClangImpl_jobs diags c opts w)))
  = List.length (getJobs c) /\
  filter is_report (log (runClangImpl_jobs diags c opts w)) = [] /\
  filter is_cerr (log (runClangImpl_jobs diags c opts w)) = [].
Proof.
  intros H. rewrite runClangImpl_jobs_run, H.
  destruct (output_conflict c opts); [discriminate|].
  unfold value, log; cbn [fst snd].
  destruct (forallb id (job_results diags opts (getJobs c) w)) eqn:T;
    [|discriminate].
  intros _. now apply all_true_all_executed.
Qed.

(** X15. The loop calls [ExecuteAction] at most once for each [clang]
    command of the list, and never for another job. *)
Theorem execute_at_most_once_per_command
    {clang : ClangLib} (diags : DiagnosticsEngine) (opts : Options)
    (jobs : list Job) (result : bool) (w : World) :
  List.length (filter is_execute (log (for_jobs diags opts jobs result w)))
  <= List.length (clang_arguments jobs).
Proof.
  rewrite for_jobs_run. unfold log; cbn [snd]. apply job_logs_facts.
Qed.

(** X16. The loop never cuts short: whatever [result] is when it starts
    and however the jobs end, the log of the loop is made of one piece for
    each job of the list, in list order, and the piece of a job shows its
    dispatch: the call of [CreateFromArgs] on its arguments for a [clang]
    command, the two reports for any other job.  Once [result] is [false]
    it stays [false]. *)
Theorem for_jobs_never_cuts_short
    {clang : ClangLib} (diags : DiagnosticsEngine) (opts : Options)
    (jobs : list Job) (result : bool) (w : World) :
  (exists pieces : list (list Event),
      log (for_jobs diags opts jobs result w) = concat pieces /\
      Forall2 dispatched jobs pieces) /\
  value (for_jobs diags opts jobs false w) = false.
Proof.
  rewrite !for_jobs_run. unfold value, log; cbn [fst snd]. split.
  - exists (job_logs diags opts jobs w). split; [reflexivity|].
    apply job_logs_dispatched.
  - apply andb_false_r.
Qed.

Import Predefines.

(** [UpdatePredefines] returns; it never throws. *)
Lemma UpdatePredefines_returns (Opts : Options) (p : string) :
  exists out, UpdatePredefines Opts p = Ok out.
Proof.
  destruct (find p predef_start) as [s|] eqn:Fs.
  - destruct (find p predef_end) as [e|] eqn:Fe.
    + destruct (find_Some_split _ _ _ Fs) as (a & b & Es & Ls).
      destruct (find_Some_split _ _ _ Fe) as (c & d & Ee & Le).
      subst s e. eexists.
      now apply (PredefinesFacts.UpdatePredefines_found Opts p a b c d).
    + eexists. apply PredefinesFacts.UpdatePredefines_not_found. now right.
  - eexists. apply PredefinesFacts.UpdatePredefines_not_found. now left.
Qed.

(** X1. When the first built-in marker line comes before the first
    command-line marker, what stands between the two in the predefines is
    removed and the configured predefines take its place; the text before
    the built-in marker and the text after the command-line marker are
    kept. *)
Theorem UpdatePredefines_drops_between_markers
    (Opts : Options) (A M B : string) :
  let p := A ++ predef_start ++ M ++ predef_end ++ B in
  (forall a' b', p = a' ++ predef_start ++ b' ->
                 String.length A <= String.length a') ->
  (forall c' d', p = c' ++ predef_end ++ d' ->
                 String.length (A ++ predef_start ++ M) <= String.length c') ->
  UpdatePredefines Opts p
  = Ok (A ++ predef_start ++ Predefines Opts ++ predef_end ++ B).
Proof.
  intros p Ls Le.
  assert (Ee : p = (A ++ predef_start ++ M) ++ predef_end ++ B).
  { unfold p. now rewrite !append_assoc. }
  pose proof (find_first_occurrence p predef_start A
                (M ++ predef_end ++ B) eq_refl Ls) as Fs.
  pose proof (find_first_occurrence p predef_end (A ++ predef_start ++ M) B
                Ee Le) as Fe.
  rewrite (PredefinesFacts.UpdatePredefines_found Opts p A
             (M ++ predef_end ++ B) (A ++ predef_start ++ M) B Fs Fe eq_refl Ee).
  now rewrite !append_assoc.
Qed.

Lemma UpdatePredefines_drops_between_markers_witness :
  UpdatePredefines Scripted.emulation
    (Scripted.line "#define __clang__ 1" ++ predef_start
       ++ Scripted.line "#define __llvm__ 1" ++ predef_end
       ++ Scripted.line "#define USER 1")
  = Ok (Scripted.line "#define __clang__ 1" ++ predef_start
          ++ Predefines Scripted.emulation ++ predef_end
          ++ Scripted.line "#define USER 1").
Proof.
  apply (UpdatePredefines_drops_between_markers Scripted.emulation
           (Scripted.line "#define __clang__ 1")
           (Scripted.line "#define __llvm__ 1")
           (Scripted.line "#define USER 1")).
  - intros a' b' E.
    exact (find_least Scripted.sample_predefines predef_start
             (String.length (Scripted.line "#define __clang__ 1"))
             eq_refl a' b' E).
  - intros c' d' E.
    exact (find_least Scripted.sample_predefines predef_end
             (String.length (Scripted.line "#define __clang__ 1"
                               ++ predef_start
                               ++ Scripted.line "#define __llvm__ 1"))
             eq_refl c' d' E).
Defined.

(** X2. [BeginSourceFileAction] never throws and always returns [true].
    Without [HaveCC] it leaves the predefines as they are; with [HaveCC]
    it installs what [UpdatePredefines] returns for them. *)
Theorem BeginSourceFileAction_returns_true (Opts : Options) (p : string) :
  exists q : string,
    BeginSourceFileAction Opts p = Ok (q, true) /\
    (if HaveCC Opts then UpdatePredefines Opts p = Ok q else q = p).
Proof.
  unfold BeginSourceFileAction. destruct (HaveCC Opts).
  - destruct (UpdatePredefines_returns Opts p) as [q U].
    exists q. now rewrite U.
  - now exists p.
Qed.

(** X3. In both modes [runClang] only appends: the caller's tokens are
    the beginning of the vector, unchanged and in their order; something
    is appended exactly when [HaveCC] is set. *)
Theorem runClang_args_only_appends (args : list string) (opts : Options) :
  exists suffix : list string,
    runClang_args args opts = (args ++ suffix)%list /\
    (suffix = [] <-> HaveCC opts = false).
Proof.
  exists (if HaveCC opts then emulation_tokens opts else []).
  split; [apply runClang_args_eq|].
  destruct (HaveCC opts).
  - unfold emulation_tokens. split; [|discriminate].
    destruct (empty (Triple opts)); discriminate.
  - now split.
Qed.

(** X5. Through [runClang], the driver is asked once, for the vector
    [<clang>], the caller's tokens, the emulation tokens when [HaveCC] is
    set (the triple and the include directories as the C strings handed
    on), and the mode flag after all of them. *)
Theorem runClang_driver_vector {clang : ClangLib}
    (args : list string) (opts : Options) (w : World) :
  map snd (built (log (runClang args opts w)))
  = [("<clang>" :: args
        ++ (if HaveCC opts then emulation_tokens opts else [])
        ++ [if PPOnly opts then "-E" else "-fsyntax-only"])%list].
Proof.
  unfold runClang. rewrite runClangImpl_run. unfold log at 1; cbn [snd].
  rewrite built_app, runClangImpl_driver_run. unfold log at 1; cbn [snd built].
  assert (J : built (log (runClangImpl_jobs diagsEngine
                            (compilation (runClang_args args opts) opts w) opts
                            (world_built (runClang_args args opts) opts w)))
              = []).
  { rewrite runClangImpl_jobs_run.
    destruct (hasArg_HASH_HASH_HASH _); [reflexivity|].
    destruct (output_conflict _ opts); [reflexivity|].
    unfold log; cbn [snd]. apply job_logs_facts. }
  rewrite J.
  destruct (diagnostics_are_no_calls
              (snd (fst (BuildCompilation (the_driver w)
                           (driver_args (runClang_args args opts) opts) w))))
    as (_ & B & _).
  rewrite B. cbn [app map snd]. unfold driver_args.
  now rewrite runClang_args_eq, <- app_assoc.
Qed.

Lemma no_jobs_exit_0_witness :
  let cl := Scripted.clang (mkCompilation false []) in
  let opts := Scripted.with_output "out.xml" in
  runClangImpl (clang := cl) [] opts []
  = (0%Z, world_built (clang := cl) [] opts [],
     log (runClangImpl_driver (clang := cl) [] opts [])).
Proof.
  intros cl opts.
  apply (no_jobs_exit_0 (clang := cl) opts [] []); reflexivity.
Defined.

Lemma single_job_runs_witness :
  let c := mkCompilation false [Scripted.source "a.cpp"] in
  let cl := Scripted.clang c in
  let opts := Scripted.with_output "out.xml" in
  let i := Scripted.source "a.cpp" in
  runClangImpl_jobs (clang := cl) diagsEngine c opts [false]
  = (if value (job_run (clang := cl) diagsEngine opts i [false])
     then 0%Z else 1%Z,
     world (job_run (clang := cl) diagsEngine opts i [false]),
     log (job_run (clang := cl) diagsEngine opts i [false])).
Proof.
  intros c cl opts i.
  apply (single_job_runs (clang := cl) diagsEngine opts c i [false]);
    reflexivity.
Defined.

Lemma parse_failure_fails_job_witness :
  let jobs := [Scripted.source "a.cpp"] in
  let cl := Scripted.clang (mkCompilation false Scripted.two_sources) in
  let opts := Scripted.no_options in
  let arguments := ["-cc1"; "-bad-flag"; "b.cpp"] in
  for_jobs (clang := cl) diagsEngine opts
    (jobs ++ Command "clang" arguments :: jobs) true [true; true]
  = (false, jobs_world (clang := cl) diagsEngine opts jobs [true],
     (concat (job_logs (clang := cl) diagsEngine opts jobs [true; true])
        ++ (EvCreateFromArgs arguments
              :: map (EvDiagnostic (clang := cl))
                   ["error: unknown argument: '-bad-flag'"])
        ++ concat (job_logs (clang := cl) diagsEngine opts jobs [true]))%list).
Proof.
  intros jobs cl opts arguments.
  apply (parse_failure_fails_job (clang := cl) diagsEngine opts jobs jobs
           arguments
           (mkCompilerInvocation
              (mkFrontendOptions (OtherAction 16) false EmptyString)
              arguments)
           ["error: unknown argument: '-bad-flag'"]
           true [true; true] [true]).
  reflexivity.
Defined.

Lemma no_diagnostics_fails_job_witness :
  let cl := NoDiagnostics.clang (mkCompilation false Scripted.two_sources) in
  let opts := Scripted.no_options in
  let arguments := ["-cc1"; "-fsyntax-only"; "a.cpp"] in
  let post := [Scripted.source "b.cpp"] in
  for_jobs (clang := cl) diagsEngine opts
    ([] ++ Command "clang" arguments :: post) true []
  = (false, jobs_world (clang := cl) diagsEngine opts post [],
     (concat (job_logs (clang := cl) diagsEngine opts [] [])
        ++ (EvCreateFromArgs arguments
              :: map (EvDiagnostic (clang := cl))
                   ["warning: argument unused during compilation"]
              ++ [EvCreateDiagnostics])
        ++ concat (job_logs (clang := cl) diagsEngine opts post []))%list).
Proof.
  intros cl opts arguments post.
  apply (no_diagnostics_fails_job (clang := cl) diagsEngine opts [] post
           arguments
           (mkCompilerInvocation
              (mkFrontendOptions ParseSyntaxOnly false EmptyString) arguments)
           ["warning: argument unused during compilation"]
           true [] [] []);
    reflexivity.
Defined.

Lemma success_means_all_executed_witness :
  let c := mkCompilation false Scripted.three_sources in
  let cl := Scripted.clang c in
  let opts := Scripted.no_options in
  let run := runClangImpl_jobs (clang := cl) diagsEngine c opts
               [true; true; true] in
  forallb is_clang_command (getJobs c) = true /\
  List.length (filter is_execute (log run)) = List.length (getJobs c) /\
  filter is_report (log run) = [] /\
  filter is_cerr (log run) = [].
Proof.
  intros c cl opts run.
  apply (success_means_all_executed (clang := cl) diagsEngine opts c
           [true; true; true]); reflexivity.
Defined.

End MoreFacts.
